(** * Arbitrary signal generator: one channel of the [asg] module

    A cycle-accurate shallow embedding of the SystemVerilog module [asg]
    (buffer RAM, burst/periodic state machine, read pointer, output stream).
    Every [always] block of the module becomes one function computing the next
    value of the registers it drives from the registers and the inputs of the
    current tick (non-blocking assignment); [step] commits all of them at once.
    Logic vectors are unsigned integers in [Z]; every truncation that an
    assignment to a narrower target performs is written out as a [mod]. *)

From Stdlib Require Import ZArith Bool List Lia String.
Import ListNotations.
Local Open Scope Z_scope.

(** ** Ports and registers *)

(** The input ports sampled at a clock edge.  [sto_rstn] is the active-low
    reset of the stream interface, [bus_*] are the request signals of the
    system bus. *)
Record inputs : Type := mkInputs {
  sto_rstn  : bool;
  ctl_rst   : bool;
  trg_i     : Z;
  cfg_trg   : Z;
  cfg_siz   : Z;
  cfg_stp   : Z;
  cfg_off   : Z;
  cfg_ben   : bool;
  cfg_inf   : bool;
  cfg_bdl   : Z;
  cfg_bln   : Z;
  cfg_bnm   : Z;
  bus_rstn  : bool;
  bus_wen   : bool;
  bus_ren   : bool;
  bus_addr  : Z;
  bus_wdata : Z
}.

(** The registers of the module.  [buf_mem], [buf_rdata], [buf_raddr],
    [sts_rdt] and [bus_rdata] have no reset in the source: their power-up
    value is whatever the state holds. *)
Record state : Type := mkState {
  buf_mem   : Z -> Z;
  buf_rdata : Z;
  buf_raddr : Z;
  ptr_cur   : Z;
  cnt_bln   : Z;
  cnt_bnm   : Z;
  sts_run   : bool;
  sts_rdt   : bool;
  sts_vld   : bool;
  trg_o     : bool;
  sto_vld   : bool;
  bus_rdata : Z;
  bus_ack   : bool
}.

(** The output ports, all driven from registers or constants. *)
Record outputs : Type := mkOutputs {
  out_sto_dat   : Z;
  out_sto_vld   : bool;
  out_sto_kep   : Z;
  out_sto_lst   : bool;
  out_trg_o     : bool;
  out_bus_rdata : Z;
  out_bus_ack   : bool;
  out_bus_err   : bool
}.

Definition b2z (b : bool) : Z := if b then 1 else 0.

(** Memory array with one cell replaced. *)
Definition mem_write (m : Z -> Z) (a v : Z) : Z -> Z :=
  fun x => if x =? a then v else m x.

(** [i] with other trigger lines and trigger mask. *)
Definition with_trg (i : inputs) (ti ct : Z) : inputs :=
  mkInputs (sto_rstn i) (ctl_rst i) ti ct (cfg_siz i) (cfg_stp i) (cfg_off i)
           (cfg_ben i) (cfg_inf i) (cfg_bdl i) (cfg_bln i) (cfg_bnm i)
           (bus_rstn i) (bus_wen i) (bus_ren i) (bus_addr i) (bus_wdata i).

(** [i] with another burst data length. *)
Definition with_bdl (i : inputs) (bdl : Z) : inputs :=
  mkInputs (sto_rstn i) (ctl_rst i) (trg_i i) (cfg_trg i) (cfg_siz i)
           (cfg_stp i) (cfg_off i) (cfg_ben i) (cfg_inf i) bdl (cfg_bln i)
           (cfg_bnm i) (bus_rstn i) (bus_wen i) (bus_ren i) (bus_addr i)
           (bus_wdata i).

(** ** The module, parametric in its widths *)

Section ASG.

(** [CWM], [CWF]: module parameters (magnitude and fraction width of the
    pointer).  [DW] is the width of [DAT_T]; [KN] is the width of [sto.kep],
    declared by the stream interface. *)
Variables CWM CWF DW KN : N.

(** Width of [ptr_cur], [cfg_siz], [cfg_stp] and [cfg_off]. *)
Definition PW : Z := Z.of_N CWM + Z.of_N CWF.

(** *** Combinational signals *)

(** [assign trg = |(trg_i & cfg_trg)] *)
Definition trg (i : inputs) : bool :=
  negb (Z.land (trg_i i) (cfg_trg i) =? 0).

(** [assign sts_rpt = sts_run & ~|cnt_bln] *)
Definition sts_rpt (s : state) : bool :=
  sts_run s && (cnt_bln s =? 0).

(** [assign sts_trg = sts_run ? sts_rpt : trg] *)
Definition sts_trg (s : state) (i : inputs) : bool :=
  if sts_run s then sts_rpt s else trg i.

(** [assign ptr_nxt = ptr_cur + (cfg_stp + 1)], a [CWM+CWF+1]-bit signal. *)
Definition ptr_nxt (s : state) (i : inputs) : Z :=
  (ptr_cur s + (cfg_stp i + 1)) mod 2 ^ (PW + 1).

(** [assign ptr_nxt_sub = ptr_nxt - (cfg_siz + 1)], also [CWM+CWF+1] bits. *)
Definition ptr_nxt_sub (s : state) (i : inputs) : Z :=
  (ptr_nxt s i - (cfg_siz i + 1)) mod 2 ^ (PW + 1).

(** [assign ptr_nxt_sub_neg = ptr_nxt_sub[CWM+CWF]] *)
Definition ptr_nxt_sub_neg (s : state) (i : inputs) : bool :=
  Z.testbit (ptr_nxt_sub s i) PW.

(** The part select [p[CWF+:CWM]]: the magnitude bits of a pointer. *)
Definition ptr_addr (p : Z) : Z :=
  Z.shiftr p (Z.of_N CWF) mod 2 ^ Z.of_N CWM.

(** *** Registers: one function per [always] block *)

(** CPU write access: [if (bus.wen) buf_mem[bus.addr] <= bus.wdata].  A write
    outside [0 .. 2**CWM-1] changes no cell; the stored value is cut to the
    width of [DAT_T]. *)
Definition next_buf_mem (s : state) (i : inputs) : Z -> Z :=
  if bus_wen i && (0 <=? bus_addr i) && (bus_addr i <? 2 ^ Z.of_N CWM)
  then mem_write (buf_mem s) (bus_addr i) (bus_wdata i mod 2 ^ Z.of_N DW)
  else buf_mem s.

(** CPU read-back access: [if (bus.ren) bus.rdata <= buf_mem[bus.addr]]. *)
Definition next_bus_rdata (s : state) (i : inputs) : Z :=
  if bus_ren i then buf_mem s (bus_addr i) else bus_rdata s.

(** CPU control signals. *)
Definition next_bus_ack (i : inputs) : bool :=
  if negb (bus_rstn i) then false else bus_ren i || bus_wen i.

(** Stream read, first statement:
    [if (sts_run) buf_raddr <= ptr_cur[CWF+:CWM]]. *)
Definition next_buf_raddr (s : state) : Z :=
  if sts_run s then ptr_addr (ptr_cur s) else buf_raddr s.

(** Stream read, second statement:
    [if (sts_vld) buf_rdata <= buf_mem[buf_raddr]]. *)
Definition next_buf_rdata (s : state) : Z :=
  if sts_vld s then buf_mem s (buf_raddr s) else buf_rdata s.

(** Valid signal used to enable memory read access. *)
Definition next_sts_vld (s : state) (i : inputs) : bool :=
  if negb (sto_rstn i) then false
  else if ctl_rst i then false
  else sts_run s.

(** The registers driven by the state machine block. *)
Record fsm_regs : Type := mkFsm {
  fsm_run : bool;
  fsm_rdt : bool;
  fsm_bnm : Z;
  fsm_bln : Z
}.

(** State machine: hardware reset, synchronous clear, burst mode, periodic
    mode, in the order of the source.  A register without an assignment in
    the branch taken keeps its value.  [cnt_bnm - !cfg_inf] is a 16-bit and
    [cnt_bln - sts_run] a 32-bit subtraction. *)
Definition next_fsm (s : state) (i : inputs) : fsm_regs :=
  if negb (sto_rstn i) then
    mkFsm false (sts_rdt s) 0 0
  else if ctl_rst i then
    mkFsm false (sts_rdt s) 0 0
  else if cfg_ben i then
    if sts_trg s i then
      mkFsm (if sts_run s then negb (cnt_bnm s =? 0) else true)
            (if sts_run s then negb (cnt_bnm s =? 0) else true)
            (if sts_run s
             then (cnt_bnm s - b2z (negb (cfg_inf i))) mod 2 ^ 16
             else cfg_bnm i)
            (cfg_bln i)
    else
      mkFsm (sts_run s) (sts_rdt s) (cnt_bnm s)
            ((cnt_bln s - b2z (sts_run s)) mod 2 ^ 32)
  else
    if sts_trg s i then
      mkFsm true (sts_rdt s) (cnt_bnm s) (cnt_bln s)
    else
      mkFsm (sts_run s) (sts_rdt s) (cnt_bnm s) (cnt_bln s).

(** Read pointer logic. *)
Definition next_ptr_cur (s : state) (i : inputs) : Z :=
  if negb (sto_rstn i) then 0
  else if ctl_rst i then 0
  else if sts_trg s i then cfg_off i
  else if sts_run s then
    (if negb (ptr_nxt_sub_neg s i) then ptr_nxt_sub s i else ptr_nxt s i)
      mod 2 ^ PW
  else ptr_cur s.

(** Trigger output. *)
Definition next_trg_o (s : state) (i : inputs) : bool :=
  if negb (sto_rstn i) then false else sts_trg s i.

(** Output valid. *)
Definition next_sto_vld (s : state) (i : inputs) : bool :=
  if negb (sto_rstn i) then false
  else if ctl_rst i then false
  else sts_vld s.

(** *** One clock edge *)

Definition step (s : state) (i : inputs) : state :=
  {| buf_mem   := next_buf_mem s i;
     buf_rdata := next_buf_rdata s;
     buf_raddr := next_buf_raddr s;
     ptr_cur   := next_ptr_cur s i;
     cnt_bln   := fsm_bln (next_fsm s i);
     cnt_bnm   := fsm_bnm (next_fsm s i);
     sts_run   := fsm_run (next_fsm s i);
     sts_rdt   := fsm_rdt (next_fsm s i);
     sts_vld   := next_sts_vld s i;
     trg_o     := next_trg_o s i;
     sto_vld   := next_sto_vld s i;
     bus_rdata := next_bus_rdata s i;
     bus_ack   := next_bus_ack i |}.

(** The output ports: [sto.dat = buf_rdata], [sto.kep = '1], [sto.lst = 0],
    [bus.err = 0], the others are registers. *)
Definition out (s : state) : outputs :=
  {| out_sto_dat   := buf_rdata s;
     out_sto_vld   := sto_vld s;
     out_sto_kep   := Z.ones (Z.of_N KN);
     out_sto_lst   := false;
     out_trg_o     := trg_o s;
     out_bus_rdata := bus_rdata s;
     out_bus_ack   := bus_ack s;
     out_bus_err   := false |}.

(** The registers after [n] clock edges, the inputs of tick [t] being [f t]. *)
Fixpoint exec (f : nat -> inputs) (n : nat) (s : state) : state :=
  match n with
  | O => s
  | S m => step (exec f m s) (f m)
  end.

(** The read addresses (magnitude bits of [ptr_cur]) on the [n] ticks that
    follow tick 0. *)
Definition read_addresses (f : nat -> inputs) (s : state) (n : nat)
  : list Z :=
  map (fun t => ptr_addr (ptr_cur (exec f (S t) s))) (seq 0 n).

(** The running flag on the [n] ticks that follow tick 0. *)
Definition running_flags (f : nat -> inputs) (s : state) (n : nat)
  : list bool :=
  map (fun t => sts_run (exec f (S t) s)) (seq 0 n).

(** Ticks [0 .. n-1] all find the generator running inside a burst period
    ([cnt_bln] not zero). *)
Fixpoint mid_period (f : nat -> inputs) (n : nat) (s : state) : bool :=
  match n with
  | O => true
  | S m => mid_period f m s &&
           sts_run (exec f m s) && negb (cnt_bln (exec f m s) =? 0)
  end.

(** Ticks [0 .. n-1] all have both resets released, step [stp] and size
    [siz] configured, the generator running and no start event. *)
Fixpoint free_running (f : nat -> inputs) (n : nat) (s : state)
    (stp siz : Z) : bool :=
  match n with
  | O => true
  | S m => free_running f m s stp siz &&
           sto_rstn (f m) && negb (ctl_rst (f m)) &&
           (cfg_stp (f m) =? stp) && (cfg_siz (f m) =? siz) &&
           sts_run (exec f m s) && negb (sts_trg (exec f m s) (f m))
  end.

(** Burst mode with [bnm + 1] repetitions of [bln + 1] ticks, finite, both
    resets released. *)
Definition burst_cfg (bnm bln : Z) (i : inputs) : bool :=
  sto_rstn i && negb (ctl_rst i) && cfg_ben i && negb (cfg_inf i) &&
  (cfg_bnm i =? bnm) && (cfg_bln i =? bln).

(** Periodic mode, both resets released. *)
Definition periodic_cfg (i : inputs) : bool :=
  sto_rstn i && negb (ctl_rst i) && negb (cfg_ben i).

(** The pointer configuration. *)
Definition phase_cfg (siz stp off : Z) (i : inputs) : bool :=
  (cfg_siz i =? siz) && (cfg_stp i =? stp) && (cfg_off i =? off).

(** *** Well-formed port and register values *)

(** The configuration ports carry values of their declared widths. *)
Definition wf_inputs (i : inputs) : bool :=
  (0 <=? cfg_siz i) && (cfg_siz i <? 2 ^ PW) &&
  (0 <=? cfg_stp i) && (cfg_stp i <? 2 ^ PW) &&
  (0 <=? cfg_off i) && (cfg_off i <? 2 ^ PW) &&
  (0 <=? cfg_bln i) && (cfg_bln i <? 2 ^ 32) &&
  (0 <=? cfg_bnm i) && (cfg_bnm i <? 2 ^ 16).

(** The pointer and the counters hold values of their declared widths. *)
Definition wf_state (s : state) : bool :=
  (0 <=? ptr_cur s) && (ptr_cur s <? 2 ^ PW) &&
  (0 <=? cnt_bln s) && (cnt_bln s <? 2 ^ 32) &&
  (0 <=? cnt_bnm s) && (cnt_bnm s <? 2 ^ 16).

End ASG.

(** ** The default instance: [u14.16] pointers, 8-bit samples *)

(** The registers after hardware reset, with a cleared sample table. *)
Definition reset_state : state :=
  {| buf_mem := fun _ => 0; buf_rdata := 0; buf_raddr := 0;
     ptr_cur := 0; cnt_bln := 0; cnt_bnm := 0;
     sts_run := false; sts_rdt := false; sts_vld := false;
     trg_o := false; sto_vld := false; bus_rdata := 0; bus_ack := false |}.

(** Inputs with reset released, the bus idle and trigger mask [1]: only the
    trigger line and the configuration vary. *)
Definition cfg_inputs (ti siz stp off : Z) (ben inf : bool) (bdl bln bnm : Z)
  : inputs :=
  mkInputs true false ti 1 siz stp off ben inf bdl bln bnm
           true false false 0 0.

(** [i] with the synchronous clear asserted. *)
Definition with_ctl_rst (i : inputs) : inputs :=
  mkInputs (sto_rstn i) true (trg_i i) (cfg_trg i) (cfg_siz i)
           (cfg_stp i) (cfg_off i) (cfg_ben i) (cfg_inf i) (cfg_bdl i)
           (cfg_bln i) (cfg_bnm i) (bus_rstn i) (bus_wen i) (bus_ren i)
           (bus_addr i) (bus_wdata i).

(** A waveform that pulses the trigger line on tick 0 only. *)
Definition pulse_then (first rest : inputs) (t : nat) : inputs :=
  match t with O => first | S _ => rest end.

(** Burst configuration on the whole [u14.16] table with a stride of one
    sample: data length 3, period length 7, 2 repetitions. *)
Definition burst_arm : inputs :=
  cfg_inputs 1 (2 ^ 30 - 1) (2 ^ 16 - 1) 0 true false 3 7 2.

Definition burst_hold : inputs :=
  cfg_inputs 0 (2 ^ 30 - 1) (2 ^ 16 - 1) 0 true false 3 7 2.

Definition burst_wave : nat -> inputs := pulse_then burst_arm burst_hold.

(** The generator of the default instance one tick after the arming trigger
    of [burst_wave], and idle again after the whole burst. *)
Definition burst_started : state := exec 14 16 8 burst_wave 1 reset_state.

Definition idle_after_burst : state := exec 14 16 8 burst_wave 26 reset_state.

(** Periodic configuration for a table of 10 samples and a stride of one
    sample, in [u14.16] pointer units. *)
Definition periodic10_arm : inputs :=
  cfg_inputs 1 (10 * 2 ^ 16 - 1) (2 ^ 16 - 1) 0 false false 0 0 0.

Definition periodic10_hold : inputs :=
  cfg_inputs 0 (10 * 2 ^ 16 - 1) (2 ^ 16 - 1) 0 false false 0 0 0.

Definition periodic10_wave : nat -> inputs :=
  pulse_then periodic10_arm periodic10_hold.

(** Periodic configuration with the register values 9, 0 and 0 themselves. *)
Definition literal10_arm : inputs :=
  cfg_inputs 1 9 0 0 false false 0 0 0.

Definition literal10_hold : inputs :=
  cfg_inputs 0 9 0 0 false false 0 0 0.

Definition literal10_wave : nat -> inputs :=
  pulse_then literal10_arm literal10_hold.

(** Periodic playback one tick after its trigger, started after a burst. *)
Definition periodic10_started : state :=
  exec 14 16 8 periodic10_wave 1 idle_after_burst.

Definition literal10_started : state :=
  exec 14 16 8 literal10_wave 1 idle_after_burst.

(** A burst started at the top of the pointer range, with size 0 and step 1. *)
Definition edge_arm : inputs :=
  cfg_inputs 1 0 1 (2 ^ 30 - 1) true false 0 7 0.

Definition edge_hold : inputs :=
  cfg_inputs 0 0 1 (2 ^ 30 - 1) true false 0 7 0.

Definition edge_started : state :=
  exec 14 16 8 (pulse_then edge_arm edge_hold) 1 reset_state.

(** Size 0 with the largest step that keeps the difference below [2^30]. *)
Definition overstep_hold : inputs :=
  cfg_inputs 0 0 (2 ^ 30 - 2) 0 true false 3 7 2.

(** A table of 2 samples with the same step. *)
Definition overstep2_hold : inputs :=
  cfg_inputs 0 (2 * 2 ^ 16 - 1) (2 ^ 30 - 2) 0 true false 3 7 2.

(** A table of 3 samples and the largest step, met at the top of the pointer
    range. *)
Definition edge3_hold : inputs :=
  cfg_inputs 0 (3 * 2 ^ 16 - 1) (2 ^ 30 - 1) (2 ^ 30 - 1) true false 0 7 0.

(** Periodic configuration for a table of 10 samples with step register 0. *)
Definition slow10_arm : inputs :=
  cfg_inputs 1 (10 * 2 ^ 16 - 1) 0 0 false false 0 0 0.

Definition slow10_hold : inputs :=
  cfg_inputs 0 (10 * 2 ^ 16 - 1) 0 0 false false 0 0 0.

Definition slow10_wave : nat -> inputs := pulse_then slow10_arm slow10_hold.

(** A table of [2^14] pointer units, started at its last position. *)
Definition small_arm : inputs :=
  cfg_inputs 1 (2 ^ 14 - 1) 0 (2 ^ 14 - 1) true false 0 7 0.

Definition small_hold : inputs :=
  cfg_inputs 0 (2 ^ 14 - 1) 0 (2 ^ 14 - 1) true false 0 7 0.

Definition small_started : state :=
  exec 14 16 8 (pulse_then small_arm small_hold) 1 reset_state.

(** ** Observers of a run *)

(** [i] with other bus request signals. *)
Definition with_bus (i : inputs) (rstn wen ren : bool) (addr wdata : Z)
  : inputs :=
  mkInputs (sto_rstn i) (ctl_rst i) (trg_i i) (cfg_trg i) (cfg_siz i)
           (cfg_stp i) (cfg_off i) (cfg_ben i) (cfg_inf i) (cfg_bdl i)
           (cfg_bln i) (cfg_bnm i) rstn wen ren addr wdata.

(** [i] with another start offset, burst length, repetition count and
    infinite flag: the configuration a start event loads or tests. *)
Definition with_start_cfg (i : inputs) (off bln bnm : Z) (inf : bool)
  : inputs :=
  mkInputs (sto_rstn i) (ctl_rst i) (trg_i i) (cfg_trg i) (cfg_siz i)
           (cfg_stp i) off (cfg_ben i) inf (cfg_bdl i) bln bnm
           (bus_rstn i) (bus_wen i) (bus_ren i) (bus_addr i) (bus_wdata i).

(** The registers of the playback control path: everything but the sample
    table, the two data registers and the bus acknowledge. *)
Record ctrl_regs : Type := mkCtrl {
  c_run   : bool;
  c_rdt   : bool;
  c_ptr   : Z;
  c_bln   : Z;
  c_bnm   : Z;
  c_vld   : bool;
  c_svld  : bool;
  c_trg   : bool;
  c_raddr : Z
}.

Definition ctrl (s : state) : ctrl_regs :=
  mkCtrl (sts_run s) (sts_rdt s) (ptr_cur s) (cnt_bln s) (cnt_bnm s)
         (sts_vld s) (sto_vld s) (trg_o s) (buf_raddr s).

(** Ticks [0 .. n-1] all have both resets released and no matching trigger
    line. *)
Fixpoint quiet (f : nat -> inputs) (n : nat) : bool :=
  match n with
  | O => true
  | S m => quiet f m && sto_rstn (f m) && negb (ctl_rst (f m)) &&
           negb (trg (f m))
  end.

(** No bus write on ticks [0 .. n-1]. *)
Fixpoint no_writes (f : nat -> inputs) (n : nat) : bool :=
  match n with
  | O => true
  | S m => no_writes f m && negb (bus_wen (f m))
  end.

(** No bus write to cell [a] on ticks [0 .. n-1]. *)
Fixpoint no_write_to (a : Z) (f : nat -> inputs) (n : nat) : bool :=
  match n with
  | O => true
  | S m => no_write_to a f m && negb (bus_wen (f m) && (bus_addr (f m) =? a))
  end.


(** Burst mode with the infinite flag set, both resets released. *)
Definition burst_inf_cfg (bnm bln : Z) (i : inputs) : bool :=
  sto_rstn i && negb (ctl_rst i) && cfg_ben i && cfg_inf i &&
  (cfg_bnm i =? bnm) && (cfg_bln i =? bln).

(** Infinite bursts on the default instance, with repetition count 2 and 0. *)
Definition inf_arm (bnm : Z) : inputs :=
  cfg_inputs 1 (2 ^ 30 - 1) (2 ^ 16 - 1) 0 true true 3 7 bnm.

Definition inf_hold (bnm : Z) : inputs :=
  cfg_inputs 0 (2 ^ 30 - 1) (2 ^ 16 - 1) 0 true true 3 7 bnm.

Definition inf_wave (bnm : Z) : nat -> inputs :=
  pulse_then (inf_arm bnm) (inf_hold bnm).

(** A bus write of [v] to cell [a], and a bus read of cell [a], the generator
    left alone. *)
Definition bus_write (a v : Z) : inputs :=
  with_bus burst_hold true true false a v.

Definition bus_read (a : Z) : inputs :=
  with_bus burst_hold true false true a 0.

(** * Streaming settings

    The class [CStreamSettings]: the values of a streaming session, one flag
    per value telling whether it was set, and their JSON file. *)

(** The members of [CStreamSettings], in the order of the class.  Fields of an
    enumeration type hold the integer value of the enumerator; [m_samples] and
    [m_decimation] are [uint32_t].  The members declared under [#ifndef Z20]
    and [#ifdef Z20_250_12] are always present here and are used only by the
    builds that declare them. *)
Record CStreamSettings : Type := mkSettings {
  m_Bhost : bool;
  m_Bport : bool;
  m_Bprotocol : bool;
  m_Bsamples : bool;
  m_Bformat : bool;
  m_Btype : bool;
  m_Bchannels : bool;
  m_Bres : bool;
  m_Bdecimation : bool;
  m_host : string;
  m_port : string;
  m_protocol : Z;
  m_samples : Z;
  m_format : Z;
  m_type : Z;
  m_channels : Z;
  m_res : Z;
  m_decimation : Z;
  m_attenuator : Z;
  m_calib : bool;
  m_Battenuator : bool;
  m_Bcalib : bool;
  m_ac_dc : Z;
  m_Bac_dc : bool
}.

(** The setters store the value and raise the flag of the member.
    [setSamples] takes an [int32_t] and stores it in the [uint32_t] member. *)
Definition setHost (_host : string) (s : CStreamSettings) : CStreamSettings :=
  mkSettings true (m_Bport s) (m_Bprotocol s) (m_Bsamples s) (m_Bformat s)
    (m_Btype s) (m_Bchannels s) (m_Bres s) (m_Bdecimation s) _host
    (m_port s) (m_protocol s) (m_samples s) (m_format s) (m_type s)
    (m_channels s) (m_res s) (m_decimation s) (m_attenuator s) (m_calib s)
    (m_Battenuator s) (m_Bcalib s) (m_ac_dc s) (m_Bac_dc s).

Definition setPort (_port : string) (s : CStreamSettings) : CStreamSettings :=
  mkSettings (m_Bhost s) true (m_Bprotocol s) (m_Bsamples s) (m_Bformat s)
    (m_Btype s) (m_Bchannels s) (m_Bres s) (m_Bdecimation s) (m_host s)
    _port (m_protocol s) (m_samples s) (m_format s) (m_type s)
    (m_channels s) (m_res s) (m_decimation s) (m_attenuator s) (m_calib s)
    (m_Battenuator s) (m_Bcalib s) (m_ac_dc s) (m_Bac_dc s).

Definition setProtocol (_protocol : Z) (s : CStreamSettings) : CStreamSettings :=
  mkSettings (m_Bhost s) (m_Bport s) true (m_Bsamples s) (m_Bformat s)
    (m_Btype s) (m_Bchannels s) (m_Bres s) (m_Bdecimation s) (m_host s)
    (m_port s) _protocol (m_samples s) (m_format s) (m_type s)
    (m_channels s) (m_res s) (m_decimation s) (m_attenuator s) (m_calib s)
    (m_Battenuator s) (m_Bcalib s) (m_ac_dc s) (m_Bac_dc s).

Definition setSamples (_samples : Z) (s : CStreamSettings) : CStreamSettings :=
  mkSettings (m_Bhost s) (m_Bport s) (m_Bprotocol s) true (m_Bformat s)
    (m_Btype s) (m_Bchannels s) (m_Bres s) (m_Bdecimation s) (m_host s)
    (m_port s) (m_protocol s) (_samples mod 2 ^ 32) (m_format s) (m_type s)
    (m_channels s) (m_res s) (m_decimation s) (m_attenuator s) (m_calib s)
    (m_Battenuator s) (m_Bcalib s) (m_ac_dc s) (m_Bac_dc s).

Definition setFormat (_format : Z) (s : CStreamSettings) : CStreamSettings :=
  mkSettings (m_Bhost s) (m_Bport s) (m_Bprotocol s) (m_Bsamples s) true
    (m_Btype s) (m_Bchannels s) (m_Bres s) (m_Bdecimation s) (m_host s)
    (m_port s) (m_protocol s) (m_samples s) _format (m_type s)
    (m_channels s) (m_res s) (m_decimation s) (m_attenuator s) (m_calib s)
    (m_Battenuator s) (m_Bcalib s) (m_ac_dc s) (m_Bac_dc s).

Definition setType (_type : Z) (s : CStreamSettings) : CStreamSettings :=
  mkSettings (m_Bhost s) (m_Bport s) (m_Bprotocol s) (m_Bsamples s)
    (m_Bformat s) true (m_Bchannels s) (m_Bres s) (m_Bdecimation s)
    (m_host s) (m_port s) (m_protocol s) (m_samples s) (m_format s) _type
    (m_channels s) (m_res s) (m_decimation s) (m_attenuator s) (m_calib s)
    (m_Battenuator s) (m_Bcalib s) (m_ac_dc s) (m_Bac_dc s).

Definition setChannels (_channels : Z) (s : CStreamSettings) : CStreamSettings :=
  mkSettings (m_Bhost s) (m_Bport s) (m_Bprotocol s) (m_Bsamples s)
    (m_Bformat s) (m_Btype s) true (m_Bres s) (m_Bdecimation s) (m_host s)
    (m_port s) (m_protocol s) (m_samples s) (m_format s) (m_type s)
    _channels (m_res s) (m_decimation s) (m_attenuator s) (m_calib s)
    (m_Battenuator s) (m_Bcalib s) (m_ac_dc s) (m_Bac_dc s).

Definition setResolution (_resolution : Z) (s : CStreamSettings) : CStreamSettings :=
  mkSettings (m_Bhost s) (m_Bport s) (m_Bprotocol s) (m_Bsamples s)
    (m_Bformat s) (m_Btype s) (m_Bchannels s) true (m_Bdecimation s)
    (m_host s) (m_port s) (m_protocol s) (m_samples s) (m_format s)
    (m_type s) (m_channels s) _resolution (m_decimation s) (m_attenuator s)
    (m_calib s) (m_Battenuator s) (m_Bcalib s) (m_ac_dc s) (m_Bac_dc s).

Definition setDecimation (_decimation : Z) (s : CStreamSettings) : CStreamSettings :=
  mkSettings (m_Bhost s) (m_Bport s) (m_Bprotocol s) (m_Bsamples s)
    (m_Bformat s) (m_Btype s) (m_Bchannels s) (m_Bres s) true (m_host s)
    (m_port s) (m_protocol s) (m_samples s) (m_format s) (m_type s)
    (m_channels s) (m_res s) _decimation (m_attenuator s) (m_calib s)
    (m_Battenuator s) (m_Bcalib s) (m_ac_dc s) (m_Bac_dc s).

Definition setAttenuator (_attenuator : Z) (s : CStreamSettings) : CStreamSettings :=
  mkSettings (m_Bhost s) (m_Bport s) (m_Bprotocol s) (m_Bsamples s)
    (m_Bformat s) (m_Btype s) (m_Bchannels s) (m_Bres s) (m_Bdecimation s)
    (m_host s) (m_port s) (m_protocol s) (m_samples s) (m_format s)
    (m_type s) (m_channels s) (m_res s) (m_decimation s) _attenuator
    (m_calib s) true (m_Bcalib s) (m_ac_dc s) (m_Bac_dc s).

Definition setCalibration (_calibration : bool) (s : CStreamSettings) : CStreamSettings :=
  mkSettings (m_Bhost s) (m_Bport s) (m_Bprotocol s) (m_Bsamples s)
    (m_Bformat s) (m_Btype s) (m_Bchannels s) (m_Bres s) (m_Bdecimation s)
    (m_host s) (m_port s) (m_protocol s) (m_samples s) (m_format s)
    (m_type s) (m_channels s) (m_res s) (m_decimation s) (m_attenuator s)
    _calibration (m_Battenuator s) true (m_ac_dc s) (m_Bac_dc s).

Definition setAC_DC (_value : Z) (s : CStreamSettings) : CStreamSettings :=
  mkSettings (m_Bhost s) (m_Bport s) (m_Bprotocol s) (m_Bsamples s)
    (m_Bformat s) (m_Btype s) (m_Bchannels s) (m_Bres s) (m_Bdecimation s)
    (m_host s) (m_port s) (m_protocol s) (m_samples s) (m_format s)
    (m_type s) (m_channels s) (m_res s) (m_decimation s) (m_attenuator s)
    (m_calib s) (m_Battenuator s) (m_Bcalib s) _value true.

(** The getters.  [getSamples] returns the [uint32_t] member as [int32_t]. *)
Definition getHost (s : CStreamSettings) : string := m_host s.
Definition getPort (s : CStreamSettings) : string := m_port s.
Definition getProtocol (s : CStreamSettings) : Z := m_protocol s.
Definition getSamples (s : CStreamSettings) : Z :=
  if m_samples s <? 2 ^ 31 then m_samples s else m_samples s - 2 ^ 32.
Definition getFormat (s : CStreamSettings) : Z := m_format s.
Definition getType (s : CStreamSettings) : Z := m_type s.
Definition getChannels (s : CStreamSettings) : Z := m_channels s.
Definition getResolution (s : CStreamSettings) : Z := m_res s.
Definition getDecimation (s : CStreamSettings) : Z := m_decimation s.
Definition getAttenuator (s : CStreamSettings) : Z := m_attenuator s.
Definition getCalibration (s : CStreamSettings) : bool := m_calib s.
Definition getAC_DC (s : CStreamSettings) : Z := m_ac_dc s.

(** The enumerators the constructor uses. *)
Definition TCP : Z := 0.
Definition WAV : Z := 0.
Definition RAW : Z := 1.
Definition CH1 : Z := 1.
Definition BIT_8 : Z := 1.
Definition A_1_1 : Z := 1.
Definition AC : Z := 1.

(** One call of a setter, and the member it sets (0 [host] .. 8 [decimation],
    9 [attenuator], 10 [calibration], 11 [coupling]). *)
Inductive setter_call : Type :=
| CallHost (v : string)
| CallPort (v : string)
| CallProtocol (v : Z)
| CallSamples (v : Z)
| CallFormat (v : Z)
| CallType (v : Z)
| CallChannels (v : Z)
| CallResolution (v : Z)
| CallDecimation (v : Z)
| CallAttenuator (v : Z)
| CallCalibration (v : bool)
| CallAC_DC (v : Z).

Definition call (c : setter_call) (s : CStreamSettings) : CStreamSettings :=
  match c with
  | CallHost v => setHost v s
  | CallPort v => setPort v s
  | CallProtocol v => setProtocol v s
  | CallSamples v => setSamples v s
  | CallFormat v => setFormat v s
  | CallType v => setType v s
  | CallChannels v => setChannels v s
  | CallResolution v => setResolution v s
  | CallDecimation v => setDecimation v s
  | CallAttenuator v => setAttenuator v s
  | CallCalibration v => setCalibration v s
  | CallAC_DC v => setAC_DC v s
  end.

Definition member_of (c : setter_call) : nat :=
  match c with
  | CallHost _ => 0 | CallPort _ => 1 | CallProtocol _ => 2
  | CallSamples _ => 3 | CallFormat _ => 4 | CallType _ => 5
  | CallChannels _ => 6 | CallResolution _ => 7 | CallDecimation _ => 8
  | CallAttenuator _ => 9 | CallCalibration _ => 10 | CallAC_DC _ => 11
  end%nat.

(** The flag of member [k]. *)
Definition flag (k : nat) (s : CStreamSettings) : bool :=
  match k with
  | 0 => m_Bhost s | 1 => m_Bport s | 2 => m_Bprotocol s
  | 3 => m_Bsamples s | 4 => m_Bformat s | 5 => m_Btype s
  | 6 => m_Bchannels s | 7 => m_Bres s | 8 => m_Bdecimation s
  | 9 => m_Battenuator s | 10 => m_Bcalib s | 11 => m_Bac_dc s
  | _ => false
  end%nat.

(** The JSON key of member [k] in the settings file. *)
Definition key_of (k : nat) : string :=
  match k with
  | 0 => "host" | 1 => "port" | 2 => "protocol" | 3 => "samples"
  | 4 => "format" | 5 => "type" | 6 => "channels" | 7 => "resolution"
  | 8 => "decimation" | 9 => "attenuator" | 10 => "calibration"
  | _ => "coupling"
  end%nat%string.

(** Calls in the order given. *)
Definition calls (cs : list setter_call) (s : CStreamSettings)
  : CStreamSettings :=
  fold_left (fun acc c => call c acc) cs s.

(** A JSON object: its members in insertion order.  [json_get] is
    [isMember] together with [operator[]] on a member that exists;
    [json_set] is the assignment [root[k] = v]. *)
Fixpoint json_get {JV : Type} (root : list (string * JV)) (k : string)
  : option JV :=
  match root with
  | [] => None
  | (k', v) :: rest => if String.eqb k' k then Some v else json_get rest k
  end.

Fixpoint json_set {JV : Type} (root : list (string * JV)) (k : string)
    (v : JV) : list (string * JV) :=
  match root with
  | [] => [(k, v)]
  | (k', v') :: rest =>
      if String.eqb k' k then (k, v) :: rest else (k', v') :: json_set rest k v
  end.

Definition isMember {JV : Type} (root : list (string * JV)) (k : string)
  : bool :=
  match json_get root k with Some _ => true | None => false end.

Section Settings.

(** The preprocessor symbols of the build. *)
Variables Z20 Z20_250_12 : bool.

(** The JSON library: the value type, the constructors the assignments
    [root[k] = ...] use, the conversions [asString], [asInt], [asUInt],
    [asBool], and writing and parsing a document.  A conversion the library
    refuses (it throws) and the messages sent to [std::cerr] are outside the
    model. *)
Variable JV : Type.
Variable jv_string : string -> JV.
Variable jv_int : Z -> JV.
Variable jv_uint : Z -> JV.
Variable jv_bool : bool -> JV.
Variable asString : JV -> string.
Variable asInt : JV -> Z.
Variable asUInt : JV -> Z.
Variable asBool : JV -> bool.
Variable FileText : Type.
Variable writeString : list (string * JV) -> FileText.
Variable parseFromStream : FileText -> option (list (string * JV)).

(** [reset] clears the flags of the build and leaves every value. *)
Definition reset (s : CStreamSettings) : CStreamSettings :=
  mkSettings false false false false false false false false false
    (m_host s) (m_port s) (m_protocol s) (m_samples s) (m_format s)
    (m_type s) (m_channels s) (m_res s) (m_decimation s) (m_attenuator s)
    (m_calib s) (if Z20 then m_Battenuator s else false)
    (if Z20 then m_Bcalib s else false) (m_ac_dc s)
    (if Z20_250_12 then false else m_Bac_dc s).

(** The constructor: default values, then [reset]. *)
Definition CStreamSettings_new : CStreamSettings :=
  reset (mkSettings false false false false false false false false false
           EmptyString EmptyString TCP (-1 mod 2 ^ 32) WAV RAW CH1 BIT_8 1
           A_1_1 false false false AC false).

Definition isSetted (s : CStreamSettings) : bool :=
  let res := m_Bhost s && m_Bport s && m_Bprotocol s && m_Bsamples s &&
             m_Bformat s && m_Btype s && m_Bchannels s && m_Bres s &&
             m_Bdecimation s in
  let res := if Z20 then res else res && m_Battenuator s && m_Bcalib s in
  let res := if Z20_250_12 then res && m_Bac_dc s else res in
  res.

(** The members [isSetted] asks for in this build. *)
Definition required : list nat :=
  [0; 1; 2; 3; 4; 5; 6; 7; 8]%nat ++
  (if Z20 then [] else [9; 10]%nat) ++
  (if Z20_250_12 then [11%nat] else []).

(** The document [writeToFile] builds. *)
Definition settings_root (s : CStreamSettings) : list (string * JV) :=
  let root := [] in
  let root := json_set root "host" (jv_string (getHost s)) in
  let root := json_set root "port" (jv_string (getPort s)) in
  let root := json_set root "protocol" (jv_int (getProtocol s)) in
  let root := json_set root "samples" (jv_int (getSamples s)) in
  let root := json_set root "format" (jv_int (getFormat s)) in
  let root := json_set root "type" (jv_int (getType s)) in
  let root := json_set root "channels" (jv_int (getChannels s)) in
  let root := json_set root "resolution" (jv_int (getResolution s)) in
  let root := json_set root "decimation" (jv_uint (getDecimation s)) in
  let root :=
    if Z20 then root
    else json_set (json_set root "attenuator" (jv_int (getAttenuator s)))
                  "calibration" (jv_bool (getCalibration s)) in
  let root :=
    if Z20_250_12 then json_set root "coupling" (jv_int (getAC_DC s))
    else root in
  root.

(** [writeToFile]: [can_open] tells whether the output file can be opened.
    The result is the return value and the new content of the file, if it
    was written. *)
Definition writeToFile (s : CStreamSettings) (can_open : bool)
  : bool * option FileText :=
  if isSetted s then
    let json_file := writeString (settings_root s) in
    if negb can_open then (false, None)
    else (true, Some json_file)
  else (false, None).

(** One [if (root.isMember(k)) set...(root[k].as...())] of [readFromFile]. *)
Definition read_member (root : list (string * JV)) (k : string)
    (set : JV -> CStreamSettings -> CStreamSettings) (s : CStreamSettings)
  : CStreamSettings :=
  match json_get root k with
  | Some v => set v s
  | None => s
  end.

(** [readFromFile]: [file] is the content of the input file, [None] when it
    cannot be opened.  The result is the object afterwards and the return
    value. *)
Definition readFromFile (s : CStreamSettings) (file : option FileText)
  : CStreamSettings * bool :=
  match file with
  | None => (s, false)
  | Some text =>
      let s := reset s in
      match parseFromStream text with
      | None => (s, false)
      | Some root =>
          let s := read_member root "host" (fun v => setHost (asString v)) s in
          let s := read_member root "port" (fun v => setPort (asString v)) s in
          let s := read_member root "protocol"
                     (fun v => setProtocol (asInt v)) s in
          let s := read_member root "samples"
                     (fun v => setSamples (asInt v)) s in
          let s := read_member root "format" (fun v => setFormat (asInt v)) s in
          let s := read_member root "type" (fun v => setType (asInt v)) s in
          let s := read_member root "channels"
                     (fun v => setChannels (asInt v)) s in
          let s := read_member root "resolution"
                     (fun v => setResolution (asInt v)) s in
          let s := read_member root "decimation"
                     (fun v => setDecimation (asUInt v)) s in
          let s :=
            if Z20 then s
            else read_member root "calibration"
                   (fun v => setCalibration (asBool v))
                   (read_member root "attenuator"
                      (fun v => setAttenuator (asInt v)) s) in
          let s :=
            if Z20_250_12
            then read_member root "coupling" (fun v => setAC_DC (asInt v)) s
            else s in
          (s, isSetted s)
      end
  end.

(** The values of the members of the build agree. *)
Definition same_values (a b : CStreamSettings) : Prop :=
  getHost a = getHost b /\ getPort a = getPort b /\
  getProtocol a = getProtocol b /\ getSamples a = getSamples b /\
  getFormat a = getFormat b /\ getType a = getType b /\
  getChannels a = getChannels b /\ getResolution a = getResolution b /\
  getDecimation a = getDecimation b /\
  (Z20 = false ->
   getAttenuator a = getAttenuator b /\
   getCalibration a = getCalibration b) /\
  (Z20_250_12 = true -> getAC_DC a = getAC_DC b).

(** The integer members hold values of their C++ types. *)
Definition int_range (z : Z) : bool := (- 2 ^ 31 <=? z) && (z <? 2 ^ 31).

Definition values_in_range (s : CStreamSettings) : bool :=
  int_range (m_protocol s) && int_range (m_format s) &&
  int_range (m_type s) && int_range (m_channels s) &&
  int_range (m_res s) && int_range (m_attenuator s) &&
  int_range (m_ac_dc s) &&
  (0 <=? m_samples s) && (m_samples s <? 2 ^ 32) &&
  (0 <=? m_decimation s) && (m_decimation s <? 2 ^ 32).

End Settings.

(** A concrete JSON value type and an in-memory file, for running the
    settings code. *)
Inductive json_value : Type :=
| JString (v : string)
| JInt (v : Z)
| JUInt (v : Z)
| JBool (v : bool).

Definition json_asString (v : json_value) : string :=
  match v with JString s => s | _ => EmptyString end.

Definition json_asInt (v : json_value) : Z :=
  match v with JInt z => z | JUInt z => z | _ => 0 end.

Definition json_asBool (v : json_value) : bool :=
  match v with JBool b => b | _ => false end.

(** A fully set object of the default build. *)
Definition sample_settings : CStreamSettings :=
  calls [CallHost "127.0.0.1"; CallPort "8900"; CallProtocol 1;
         CallSamples (-1); CallFormat 2; CallType 2; CallChannels 3;
         CallResolution 2; CallDecimation 16; CallAttenuator 2;
         CallCalibration true]%string
        (CStreamSettings_new false false).

(** Files held in memory as the document itself. *)
Definition text_file : Type := list (string * json_value).

Definition write_text (root : list (string * json_value)) : text_file := root.

Definition parse_text (text : text_file)
  : option (list (string * json_value)) := Some text.


(** The reset generator after one bus write. *)
Definition loaded_state : state :=
  step 14 16 8 reset_state (bus_write 2 77).

(** The settings file code of the default build on in-memory files. *)
Definition write_json (s : CStreamSettings) (can_open : bool)
  : bool * option text_file :=
  writeToFile false false json_value JString JInt JUInt JBool text_file
    write_text s can_open.

Definition read_json (s : CStreamSettings) (file : option text_file)
  : CStreamSettings * bool :=
  readFromFile false false json_value json_asString json_asInt json_asInt
    json_asBool text_file parse_text s file.

(** Discharges a side condition on concrete registers and inputs. *)
Ltac by_eval :=
  first
    [ reflexivity
    | intros [| ?]; reflexivity
    | intros ?; reflexivity
    | vm_compute; reflexivity
    | vm_compute; discriminate
    | vm_compute; intro; discriminate
    | split; vm_compute; first [reflexivity | discriminate | intro; discriminate]
    | lia ].

(** ** Properties *)

Section Properties.

Variables CWM CWF DW KN : N.

Local Abbreviation PW := (PW CWM CWF).
Local Abbreviation ptr_nxt := (ptr_nxt CWM CWF).
Local Abbreviation ptr_nxt_sub := (ptr_nxt_sub CWM CWF).
Local Abbreviation ptr_nxt_sub_neg := (ptr_nxt_sub_neg CWM CWF).
Local Abbreviation ptr_addr := (ptr_addr CWM CWF).
Local Abbreviation next_ptr_cur := (next_ptr_cur CWM CWF).
Local Abbreviation step := (step CWM CWF DW).
Local Abbreviation exec := (exec CWM CWF DW).
Local Abbreviation wf_inputs := (wf_inputs CWM CWF).
Local Abbreviation wf_state := (wf_state CWM CWF).

Lemma PW_nonneg : 0 <= PW.
Proof. unfold PW. lia. Qed.

Lemma pow_PW_pos : 0 < 2 ^ PW.
Proof. apply Z.pow_pos_nonneg; [lia | apply PW_nonneg]. Qed.

Lemma pow_PW_succ : 2 ^ (PW + 1) = 2 * 2 ^ PW.
Proof.
  rewrite Z.pow_add_r by (apply PW_nonneg || lia).
  rewrite Z.pow_1_r. lia.
Qed.

(** The top bit of an [n+1]-bit value is set exactly from [2^n] on. *)
Lemma testbit_top (n x : Z) :
  0 <= n -> 0 <= x < 2 * 2 ^ n -> Z.testbit x n = (2 ^ n <=? x).
Proof.
  intros Hn Hx.
  assert (Hp : 0 < 2 ^ n) by (apply Z.pow_pos_nonneg; lia).
  rewrite Z.testbit_eqb by assumption.
  destruct (Z.leb_spec (2 ^ n) x) as [Hle | Hlt].
  - assert (Hq : x / 2 ^ n = 1).
    { symmetry. apply (Z.div_unique_pos x (2 ^ n) 1 (x - 2 ^ n)); lia. }
    rewrite Hq. reflexivity.
  - rewrite Z.div_small by lia. reflexivity.
Qed.

Lemma wf_inputs_spec (i : inputs) :
  wf_inputs i = true ->
  0 <= cfg_siz i < 2 ^ PW /\ 0 <= cfg_stp i < 2 ^ PW /\
  0 <= cfg_off i < 2 ^ PW /\ 0 <= cfg_bln i < 2 ^ 32 /\
  0 <= cfg_bnm i < 2 ^ 16.
Proof. unfold wf_inputs. lia. Qed.

Lemma wf_state_spec (s : state) :
  wf_state s = true ->
  0 <= ptr_cur s < 2 ^ PW /\ 0 <= cnt_bln s < 2 ^ 32 /\
  0 <= cnt_bnm s < 2 ^ 16.
Proof. unfold wf_state. lia. Qed.

(** *** The pointer increment in closed form *)

Lemma ptr_nxt_exact (s : state) (i : inputs) :
  wf_state s = true -> wf_inputs i = true ->
  ptr_nxt s i = ptr_cur s + (cfg_stp i + 1).
Proof.
  intros Hs Hi. apply wf_state_spec in Hs. apply wf_inputs_spec in Hi.
  unfold ptr_nxt. pose proof pow_PW_succ.
  apply Z.mod_small. lia.
Qed.

Lemma ptr_nxt_sub_exact (s : state) (i : inputs) :
  wf_state s = true -> wf_inputs i = true ->
  ptr_nxt_sub s i =
    if ptr_nxt s i <? cfg_siz i + 1
    then ptr_nxt s i - (cfg_siz i + 1) + 2 * 2 ^ PW
    else ptr_nxt s i - (cfg_siz i + 1).
Proof.
  intros Hs Hi. unfold ptr_nxt_sub.
  rewrite (ptr_nxt_exact s i Hs Hi).
  apply wf_state_spec in Hs. apply wf_inputs_spec in Hi.
  rewrite pow_PW_succ.
  destruct (Z.ltb_spec (ptr_cur s + (cfg_stp i + 1)) (cfg_siz i + 1)).
  - symmetry. apply (Z.mod_unique_pos _ _ (-1)); lia.
  - apply Z.mod_small. lia.
Qed.

(** The sign test of the source reads bit [CWM+CWF] of the difference: it
    reports "negative" when the subtraction borrows, and also when the
    difference itself reaches [2^(CWM+CWF)]. *)
Lemma ptr_nxt_sub_neg_exact (s : state) (i : inputs) :
  wf_state s = true -> wf_inputs i = true ->
  ptr_nxt_sub_neg s i =
    (ptr_nxt s i <? cfg_siz i + 1) ||
    (2 ^ PW <=? ptr_nxt s i - (cfg_siz i + 1)).
Proof.
  intros Hs Hi. unfold ptr_nxt_sub_neg.
  pose proof (ptr_nxt_exact s i Hs Hi) as Hn.
  pose proof (ptr_nxt_sub_exact s i Hs Hi) as Hsub.
  apply wf_state_spec in Hs. apply wf_inputs_spec in Hi.
  rewrite testbit_top.
  - rewrite Hsub.
    destruct (Z.ltb_spec (ptr_nxt s i) (cfg_siz i + 1)); cbn [orb]; lia.
  - apply PW_nonneg.
  - rewrite Hsub.
    destruct (Z.ltb_spec (ptr_nxt s i) (cfg_siz i + 1)); lia.
Qed.

(** The value loaded into [ptr_cur] by the increment branch. *)
Lemma ptr_increment (s : state) (i : inputs) :
  wf_state s = true -> wf_inputs i = true ->
  (if negb (ptr_nxt_sub_neg s i) then ptr_nxt_sub s i else ptr_nxt s i)
    mod 2 ^ PW =
  let next := ptr_cur s + (cfg_stp i + 1) in
  let reduced := next - (cfg_siz i + 1) in
  if reduced <? 0 then next
  else if reduced <? 2 ^ PW then reduced
  else next - 2 ^ PW.
Proof.
  intros Hs Hi.
  rewrite (ptr_nxt_sub_neg_exact s i Hs Hi), (ptr_nxt_sub_exact s i Hs Hi).
  rewrite (ptr_nxt_exact s i Hs Hi).
  apply wf_state_spec in Hs. apply wf_inputs_spec in Hi.
  cbv zeta.
  destruct (Z.ltb_spec (ptr_cur s + (cfg_stp i + 1)) (cfg_siz i + 1));
    destruct (Z.ltb_spec (ptr_cur s + (cfg_stp i + 1) - (cfg_siz i + 1)) 0);
    try lia; cbn [orb negb].
  - apply Z.mod_small. lia.
  - destruct (Z.leb_spec (2 ^ PW)
                (ptr_cur s + (cfg_stp i + 1) - (cfg_siz i + 1)));
      destruct (Z.ltb_spec
                  (ptr_cur s + (cfg_stp i + 1) - (cfg_siz i + 1)) (2 ^ PW));
      try lia; cbn [negb].
    + symmetry. apply (Z.mod_unique_pos _ _ 1); lia.
    + apply Z.mod_small. lia.
Qed.

(** *** One tick of the phase accumulator *)

Lemma step_ptr_running (s : state) (i : inputs) :
  sto_rstn i = true -> ctl_rst i = false ->
  sts_run s = true -> sts_trg s i = false ->
  ptr_cur (step s i) =
    (if negb (ptr_nxt_sub_neg s i) then ptr_nxt_sub s i else ptr_nxt s i)
      mod 2 ^ PW.
Proof.
  intros Hr Hc Hrun Htrg. cbn [step ptr_cur].
  unfold next_ptr_cur. rewrite Hr, Hc, Htrg, Hrun. reflexivity.
Qed.

(** C1 (amended).  On a tick with the generator running, no start event and
    both resets released, [ptr_cur] receives [reduced = next - (cfg_siz + 1)]
    when [next >= cfg_siz + 1] and [next = ptr_cur + (cfg_stp + 1)] otherwise,
    as long as [reduced] stays below [2^(CWM+CWF)]; the selection reads bit
    [CWM+CWF] of the difference, so from [reduced >= 2^(CWM+CWF)] on it is
    [next], cut to [CWM+CWF] bits, that is loaded. *)
Theorem phase_accumulator_update (s : state) (i : inputs) :
  wf_state s = true -> wf_inputs i = true ->
  sto_rstn i = true -> ctl_rst i = false ->
  sts_run s = true -> sts_trg s i = false ->
  let next := ptr_cur s + (cfg_stp i + 1) in
  let reduced := next - (cfg_siz i + 1) in
  (reduced < 2 ^ PW ->
   ptr_cur (step s i) = if cfg_siz i + 1 <=? next then reduced else next) /\
  (2 ^ PW <= reduced -> ptr_cur (step s i) = next - 2 ^ PW) /\
  (ptr_cur s <= cfg_siz i -> reduced < 2 ^ PW).
Proof.
  intros Hs Hi Hr Hc Hrun Htrg next reduced.
  rewrite (step_ptr_running s i Hr Hc Hrun Htrg).
  rewrite (ptr_increment s i Hs Hi). cbv zeta. fold next. fold reduced.
  apply wf_state_spec in Hs. apply wf_inputs_spec in Hi.
  repeat split.
  - intros Hlt.
    destruct (Z.ltb_spec reduced 0); destruct (Z.leb_spec (cfg_siz i + 1) next);
      destruct (Z.ltb_spec reduced (2 ^ PW)); subst reduced; lia.
  - intros Hge.
    destruct (Z.ltb_spec reduced 0); destruct (Z.ltb_spec reduced (2 ^ PW));
      subst reduced; lia.
  - subst reduced next. lia.
Qed.

(** The registers keep to their widths. *)
Lemma step_wf (s : state) (i : inputs) :
  wf_state s = true -> wf_inputs i = true -> wf_state (step s i) = true.
Proof.
  intros Hs Hi.
  pose proof (ptr_increment s i Hs Hi) as Hinc. cbv zeta in Hinc.
  apply wf_state_spec in Hs. apply wf_inputs_spec in Hi.
  pose proof pow_PW_pos as Hp.
  assert (Hptr : 0 <= ptr_cur (step s i) < 2 ^ PW).
  { cbn [step ptr_cur]. unfold next_ptr_cur.
    destruct (negb (sto_rstn i)); [lia |].
    destruct (ctl_rst i); [lia |].
    destruct (sts_trg s i); [lia |].
    destruct (sts_run s); [| lia].
    apply Z.mod_pos_bound. exact Hp. }
  assert (Hbln : 0 <= cnt_bln (step s i) < 2 ^ 32).
  { cbn [step cnt_bln]. unfold next_fsm.
    destruct (negb (sto_rstn i)); [cbn; lia |].
    destruct (ctl_rst i); [cbn; lia |].
    destruct (cfg_ben i); destruct (sts_trg s i); cbn [fsm_bln]; try lia.
    apply Z.mod_pos_bound. lia. }
  assert (Hbnm : 0 <= cnt_bnm (step s i) < 2 ^ 16).
  { cbn [step cnt_bnm]. unfold next_fsm.
    destruct (negb (sto_rstn i)); [cbn; lia |].
    destruct (ctl_rst i); [cbn; lia |].
    destruct (cfg_ben i); destruct (sts_trg s i); cbn [fsm_bnm]; try lia.
    destruct (sts_run s); [| lia].
    apply Z.mod_pos_bound. lia. }
  unfold wf_state. lia.
Qed.

(** Inside the operating range ([ptr_cur] and [cfg_stp] not above [cfg_siz])
    the increment is an addition modulo [cfg_siz + 1]. *)
Lemma step_ptr_mod (s : state) (i : inputs) :
  wf_state s = true -> wf_inputs i = true ->
  sto_rstn i = true -> ctl_rst i = false ->
  sts_run s = true -> sts_trg s i = false ->
  ptr_cur s <= cfg_siz i -> cfg_stp i <= cfg_siz i ->
  ptr_cur (step s i) = (ptr_cur s + (cfg_stp i + 1)) mod (cfg_siz i + 1).
Proof.
  intros Hs Hi Hr Hc Hrun Htrg Hp Hstp.
  rewrite (step_ptr_running s i Hr Hc Hrun Htrg).
  rewrite (ptr_increment s i Hs Hi). cbv zeta.
  apply wf_state_spec in Hs. apply wf_inputs_spec in Hi.
  destruct (Z.ltb_spec (ptr_cur s + (cfg_stp i + 1) - (cfg_siz i + 1)) 0).
  - symmetry. apply Z.mod_small. lia.
  - destruct (Z.ltb_spec
                (ptr_cur s + (cfg_stp i + 1) - (cfg_siz i + 1)) (2 ^ PW));
      [| lia].
    apply (Z.mod_unique_pos _ _ 1); lia.
Qed.

Lemma free_running_S (f : nat -> inputs) (m : nat) (s : state) (stp siz : Z) :
  free_running CWM CWF DW f (S m) s stp siz = true ->
  free_running CWM CWF DW f m s stp siz = true /\
  sto_rstn (f m) = true /\ ctl_rst (f m) = false /\
  cfg_stp (f m) = stp /\ cfg_siz (f m) = siz /\
  sts_run (exec f m s) = true /\ sts_trg (exec f m s) (f m) = false.
Proof.
  cbn [free_running]. intros H.
  repeat (apply andb_prop in H; destruct H as [H ?]).
  repeat split; try assumption.
  - apply negb_true_iff. assumption.
  - apply Z.eqb_eq. assumption.
  - apply Z.eqb_eq. assumption.
  - apply negb_true_iff. assumption.
Qed.

(** [n] free-running ticks add [n * (stp + 1)] modulo [siz + 1]. *)
Lemma free_running_phase (f : nat -> inputs) (n : nat) (s : state)
    (stp siz : Z) :
  wf_state s = true -> (forall t, wf_inputs (f t) = true) ->
  0 <= stp <= siz -> ptr_cur s <= siz ->
  free_running CWM CWF DW f n s stp siz = true ->
  wf_state (exec f n s) = true /\
  ptr_cur (exec f n s) = (ptr_cur s + Z.of_nat n * (stp + 1)) mod (siz + 1).
Proof.
  intros Hs Hf Hstp Hp. induction n as [| m IH]; intros Hfree.
  - split; [exact Hs |]. cbn [exec].
    apply wf_state_spec in Hs. rewrite Z.mod_small; lia.
  - apply free_running_S in Hfree.
    destruct Hfree as (Hm & Hr & Hc & Hst & Hsz & Hrun & Htrg).
    destruct (IH Hm) as [Hwf Hptr]. cbn [exec].
    split; [apply step_wf; [exact Hwf | apply Hf] |].
    assert (Hle : ptr_cur (exec f m s) <= siz).
    { rewrite Hptr.
      pose proof (Z.mod_pos_bound (ptr_cur s + Z.of_nat m * (stp + 1))
                    (siz + 1)). lia. }
    rewrite step_ptr_mod; try assumption; try apply Hf; try lia.
    rewrite Hst, Hsz, Hptr. rewrite Z.add_mod_idemp_l by lia.
    f_equal. lia.
Qed.

(** C3 (amended).  Over [n] ticks on which the generator runs with no start
    event and fixed [cfg_stp] and [cfg_siz], starting from a pointer not above
    [cfg_siz] and with [cfg_stp] not above [cfg_siz], [ptr_cur] advances by
    [n * (cfg_stp + 1)] modulo [cfg_siz + 1].  The modulus is the size
    register itself, which counts in pointer units of [2^-CWF] samples; it is
    not multiplied by [2^CWF] again. *)
Theorem frequency_law (f : nat -> inputs) (n : nat) (s : state)
    (stp siz : Z) :
  wf_state s = true -> (forall t, wf_inputs (f t) = true) ->
  0 <= stp <= siz -> ptr_cur s <= siz ->
  free_running CWM CWF DW f n s stp siz = true ->
  ptr_cur (exec f n s) = (ptr_cur s + Z.of_nat n * (stp + 1)) mod (siz + 1).
Proof.
  intros Hs Hf Hstp Hp Hfree.
  exact (proj2 (free_running_phase f n s stp siz Hs Hf Hstp Hp Hfree)).
Qed.

(** The magnitude bits of a pointer within its width. *)
Lemma ptr_addr_small (p : Z) :
  0 <= p < 2 ^ PW -> ptr_addr p = p / 2 ^ Z.of_N CWF.
Proof.
  intros Hp. unfold ptr_addr.
  rewrite Z.shiftr_div_pow2 by lia.
  assert (Hf : 0 < 2 ^ Z.of_N CWF) by (apply Z.pow_pos_nonneg; lia).
  apply Z.mod_small. split.
  - apply Z.div_pos; lia.
  - apply Z.div_lt_upper_bound; [exact Hf |].
    rewrite <- Z.pow_add_r by lia.
    unfold PW in Hp. rewrite Z.add_comm. lia.
Qed.

(** C4 (amended).  After one increment from a pointer not above [cfg_siz],
    with [cfg_stp] not above [cfg_siz] either, the new pointer is again not
    above [cfg_siz] and the read address (its magnitude bits) lies between 0
    and the magnitude bits of [cfg_siz].  When the whole pointer range is
    used, [cfg_siz + 1 = 2^(CWM+CWF)], the increment is the plain overflow of
    the [CWM+CWF]-bit pointer, for every pointer and step. *)
Theorem wraparound (s : state) (i : inputs) :
  wf_state s = true -> wf_inputs i = true ->
  sto_rstn i = true -> ctl_rst i = false ->
  sts_run s = true -> sts_trg s i = false ->
  (ptr_cur s <= cfg_siz i -> cfg_stp i <= cfg_siz i ->
   0 <= ptr_cur (step s i) <= cfg_siz i /\
   0 <= ptr_addr (ptr_cur (step s i)) <= cfg_siz i / 2 ^ Z.of_N CWF /\
   ptr_addr (ptr_cur (step s i)) <= cfg_siz i) /\
  (cfg_siz i + 1 = 2 ^ PW ->
   ptr_cur (step s i) = (ptr_cur s + (cfg_stp i + 1)) mod 2 ^ PW).
Proof.
  intros Hs Hi Hr Hc Hrun Htrg.
  pose proof (step_wf s i Hs Hi) as Hwf. apply wf_state_spec in Hwf.
  assert (Hf : 0 < 2 ^ Z.of_N CWF) by (apply Z.pow_pos_nonneg; lia).
  split.
  - intros Hp Hstp.
    pose proof (step_ptr_mod s i Hs Hi Hr Hc Hrun Htrg Hp Hstp) as Hmod.
    apply wf_inputs_spec in Hi.
    assert (Hle : 0 <= ptr_cur (step s i) <= cfg_siz i).
    { rewrite Hmod.
      pose proof (Z.mod_pos_bound (ptr_cur s + (cfg_stp i + 1))
                    (cfg_siz i + 1)). lia. }
    rewrite ptr_addr_small by lia.
    assert (Hdiv : ptr_cur (step s i) / 2 ^ Z.of_N CWF
                   <= cfg_siz i / 2 ^ Z.of_N CWF)
      by (apply Z.div_le_mono; lia).
    assert (Hsz : cfg_siz i / 2 ^ Z.of_N CWF <= cfg_siz i).
    { apply Z.div_le_upper_bound; [exact Hf |]. nia. }
    repeat split; try lia.
    apply Z.div_pos; lia.
  - intros Hmax.
    rewrite (step_ptr_running s i Hr Hc Hrun Htrg).
    rewrite (ptr_increment s i Hs Hi). cbv zeta.
    apply wf_state_spec in Hs. apply wf_inputs_spec in Hi.
    destruct (Z.ltb_spec (ptr_cur s + (cfg_stp i + 1) - (cfg_siz i + 1)) 0).
    + symmetry. apply Z.mod_small. lia.
    + destruct (Z.ltb_spec
                  (ptr_cur s + (cfg_stp i + 1) - (cfg_siz i + 1)) (2 ^ PW));
        apply (Z.mod_unique_pos _ _ 1); lia.
Qed.

(** *** Burst mode *)

Lemma burst_cfg_spec (bnm bln : Z) (i : inputs) :
  burst_cfg bnm bln i = true ->
  sto_rstn i = true /\ ctl_rst i = false /\ cfg_ben i = true /\
  cfg_inf i = false /\ cfg_bnm i = bnm /\ cfg_bln i = bln.
Proof.
  unfold burst_cfg. intros H.
  repeat (apply andb_prop in H; destruct H as [H ?]).
  repeat split; try assumption;
    try (apply negb_true_iff; assumption);
    try (apply Z.eqb_eq; assumption).
Qed.

(** The state machine registers after a burst-mode tick, case by case. *)
Lemma burst_tick (bnm bln : Z) (s : state) (i : inputs) :
  burst_cfg bnm bln i = true ->
  sts_run (step s i) =
    (if sts_trg s i
     then (if sts_run s then negb (cnt_bnm s =? 0) else true)
     else sts_run s) /\
  cnt_bnm (step s i) =
    (if sts_trg s i
     then (if sts_run s then (cnt_bnm s - 1) mod 2 ^ 16 else bnm)
     else cnt_bnm s) /\
  cnt_bln (step s i) =
    (if sts_trg s i then bln else (cnt_bln s - b2z (sts_run s)) mod 2 ^ 32) /\
  (sts_trg s i = true -> ptr_cur (step s i) = cfg_off i) /\
  trg_o (step s i) = sts_trg s i.
Proof.
  intros H. apply burst_cfg_spec in H.
  destruct H as (Hr & Hc & Hben & Hinf & Hbnm & Hbln).
  cbn [step sts_run cnt_bnm cnt_bln ptr_cur trg_o].
  unfold next_fsm, next_trg_o, next_ptr_cur.
  rewrite Hr, Hc, Hben, Hinf, Hbnm, Hbln. cbn [negb b2z].
  destruct (sts_trg s i); cbn [fsm_run fsm_bnm fsm_bln]; repeat split;
    intros; discriminate.
Qed.

(** Quotient and remainder of the successor. *)
Lemma divmod_succ (t d : Z) :
  0 <= t -> 0 < d ->
  (t mod d = d - 1 /\ (t + 1) / d = t / d + 1 /\ (t + 1) mod d = 0) \/
  (t mod d < d - 1 /\ (t + 1) / d = t / d /\ (t + 1) mod d = t mod d + 1).
Proof.
  intros Ht Hd.
  pose proof (Z.div_mod t d ltac:(lia)) as Hdm.
  pose proof (Z.mod_pos_bound t d Hd) as Hb.
  destruct (Z.eq_dec (t mod d) (d - 1)) as [He | Hne].
  - left. split; [exact He |].
    assert (Hq : t + 1 = d * (t / d + 1) + 0) by lia.
    split.
    + symmetry. apply (Z.div_unique_pos _ _ _ 0); lia.
    + symmetry. apply (Z.mod_unique_pos _ _ (t / d + 1)); lia.
  - right. split; [lia |].
    split.
    + symmetry. apply (Z.div_unique_pos _ _ _ (t mod d + 1)); lia.
    + symmetry. apply (Z.mod_unique_pos _ _ (t / d)); lia.
Qed.

(** Below [(k + 1) * d] means quotient at most [k]. *)
Lemma lt_periods_iff (t k d : Z) :
  0 <= t -> 0 < d -> 0 <= k -> (t < (k + 1) * d <-> t / d <= k).
Proof.
  intros Ht Hd Hk.
  pose proof (Z.div_mod t d ltac:(lia)) as Hdm.
  pose proof (Z.mod_pos_bound t d Hd) as Hb.
  split; intros H; nia.
Qed.

(** The burst state machine, tick by tick: after an arming trigger received
    while idle, tick [t + 1] finds the generator in period [t / (bln + 1)] at
    position [t mod (bln + 1)] while [t < (bnm + 1) * (bln + 1)], and idle
    afterwards. *)
Lemma burst_counters (bnm bln : Z) (f : nat -> inputs) (s : state) :
  0 <= bnm < 2 ^ 16 -> 0 <= bln < 2 ^ 32 ->
  sts_run s = false -> trg (f O) = true ->
  (forall t, burst_cfg bnm bln (f t) = true) ->
  (forall t, trg (f (S t)) = false) ->
  forall t : nat,
    (Z.of_nat t < (bnm + 1) * (bln + 1) ->
     sts_run (exec f (S t) s) = true /\
     cnt_bnm (exec f (S t) s) = bnm - Z.of_nat t / (bln + 1) /\
     cnt_bln (exec f (S t) s) = bln - Z.of_nat t mod (bln + 1)) /\
    ((bnm + 1) * (bln + 1) <= Z.of_nat t ->
     sts_run (exec f (S t) s) = false).
Proof.
  intros Hk HL Hidle Htrg Hcfg Hquiet.
  induction t as [| t IH].
  - cbn [exec].
    destruct (burst_tick bnm bln s (f O) (Hcfg O)) as (Hrun & Hbnm & Hbln & _).
    assert (Hst : sts_trg s (f O) = true)
      by (unfold sts_trg; rewrite Hidle; exact Htrg).
    rewrite Hst, Hidle in *. rewrite Hrun, Hbnm, Hbln.
    change (Z.of_nat 0) with 0.
    rewrite Z.div_0_l, Z.mod_0_l by lia.
    split; [intros _; repeat split; lia | intros; nia].
  - remember (exec f (S t) s) as st eqn:Est.
    change (exec f (S (S t)) s) with (step (exec f (S t) s) (f (S t))).
    rewrite <- Est.
    destruct (burst_tick bnm bln st (f (S t)) (Hcfg (S t)))
      as (Hrun & Hbnm & Hbln & _).
    rewrite Hrun, Hbnm, Hbln. clear Hrun Hbnm Hbln.
    destruct IH as [IHrun IHidle].
    pose proof (divmod_succ (Z.of_nat t) (bln + 1) ltac:(lia) ltac:(lia))
      as Hds.
    pose proof (lt_periods_iff (Z.of_nat t) bnm (bln + 1)
                  ltac:(lia) ltac:(lia) ltac:(lia)) as Hlt.
    pose proof (lt_periods_iff (Z.of_nat (S t)) bnm (bln + 1)
                  ltac:(lia) ltac:(lia) ltac:(lia)) as Hlt'.
    pose proof (Z.mod_pos_bound (Z.of_nat t) (bln + 1) ltac:(lia)) as Hmb.
    assert (Hq0 : 0 <= Z.of_nat t / (bln + 1)) by (apply Z.div_pos; lia).
    replace (Z.of_nat (S t)) with (Z.of_nat t + 1) in * by lia.
    destruct (Z.lt_ge_cases (Z.of_nat t) ((bnm + 1) * (bln + 1)))
      as [Hin | Hout].
    + destruct (IHrun Hin) as (Hr & Hb & Hl).
      unfold sts_trg, sts_rpt. rewrite Hr. cbn [andb b2z].
      destruct Hds as [(Hm & Hq & Hm') | (Hm & Hq & Hm')];
        rewrite Hq, Hm'.
      * assert (Hz : cnt_bln st = 0) by lia.
        rewrite Hz. cbn [Z.eqb].
        split.
        -- intros Hin'. apply Hlt' in Hin'. rewrite Hq in Hin'.
           assert (Hnz : cnt_bnm st <> 0) by lia.
           apply Z.eqb_neq in Hnz. rewrite Hnz. cbn [negb].
           repeat split; [| lia].
           rewrite Z.mod_small; lia.
        -- intros Hout'.
           assert (Hzero : cnt_bnm st = 0).
           { destruct (Z.eq_dec (cnt_bnm st) 0) as [E | E]; [exact E |].
             exfalso. assert (Z.of_nat t / (bln + 1) + 1 <= bnm) by lia.
             assert (Z.of_nat t + 1 < (bnm + 1) * (bln + 1)).
             { apply Hlt'. rewrite Hq. lia. }
             lia. }
           rewrite Hzero. reflexivity.
      * assert (Hnz : cnt_bln st <> 0) by lia.
        apply Z.eqb_neq in Hnz. rewrite Hnz.
        split.
        -- intros _. repeat split; [lia |].
           rewrite Z.mod_small; lia.
        -- intros Hout'. exfalso.
           assert (Z.of_nat t + 1 < (bnm + 1) * (bln + 1)).
           { apply Hlt'. rewrite Hq. apply Hlt. exact Hin. }
           lia.
    + pose proof (IHidle Hout) as Hr.
      unfold sts_trg. rewrite Hr, (Hquiet t).
      split; [intros; lia | intros _; reflexivity].
Qed.

(** C5.  In burst mode with [cfg_bnm = bnm], [cfg_bln = bln] and [cfg_inf]
    off, one arming trigger received while idle (tick 0) and no trigger
    afterwards: the generator runs on exactly the [(bnm + 1) * (bln + 1)]
    ticks that follow, as [bnm + 1] periods of [bln + 1] ticks ([cnt_bnm]
    counts the periods left, [cnt_bln] the ticks left in the period), and is
    idle on every later tick.  Start events fire at the period boundaries
    only. *)
Theorem burst_repeat_exact (bnm bln : Z) (f : nat -> inputs) (s : state) :
  0 <= bnm < 2 ^ 16 -> 0 <= bln < 2 ^ 32 ->
  sts_run s = false -> trg (f O) = true ->
  (forall t, burst_cfg bnm bln (f t) = true) ->
  (forall t, trg (f (S t)) = false) ->
  forall t : nat,
    sts_run (exec f (S t) s) = (Z.of_nat t <? (bnm + 1) * (bln + 1)) /\
    (Z.of_nat t < (bnm + 1) * (bln + 1) ->
     cnt_bnm (exec f (S t) s) = bnm - Z.of_nat t / (bln + 1) /\
     cnt_bln (exec f (S t) s) = bln - Z.of_nat t mod (bln + 1)) /\
    sts_trg (exec f (S t) s) (f (S t)) =
      (Z.of_nat t <? (bnm + 1) * (bln + 1)) &&
      (Z.of_nat t mod (bln + 1) =? bln).
Proof.
  intros Hk HL Hidle Htrg Hcfg Hquiet t.
  destruct (burst_counters bnm bln f s Hk HL Hidle Htrg Hcfg Hquiet t)
    as [Hin Hout].
  destruct (Z.ltb_spec (Z.of_nat t) ((bnm + 1) * (bln + 1))) as [Hlt | Hge].
  - destruct (Hin Hlt) as (Hr & Hb & Hl).
    split; [exact Hr |]. split; [intros _; split; assumption |].
    unfold sts_trg, sts_rpt. rewrite Hr, Hl. cbn [andb].
    destruct (Z.eqb_spec (bln - Z.of_nat t mod (bln + 1)) 0);
      destruct (Z.eqb_spec (Z.of_nat t mod (bln + 1)) bln); lia.
  - split; [exact (Hout Hge) |]. split; [intros; lia |].
    unfold sts_trg. rewrite (Hout Hge). cbn [andb]. apply Hquiet.
Qed.

Lemma exec_wf (f : nat -> inputs) (n : nat) (s : state) :
  wf_state s = true -> (forall t, wf_inputs (f t) = true) ->
  wf_state (exec f n s) = true.
Proof.
  intros Hs Hf. induction n as [| m IH]; [exact Hs |].
  cbn [exec]. apply step_wf; [exact IH | apply Hf].
Qed.

Lemma phase_cfg_spec (siz stp off : Z) (i : inputs) :
  phase_cfg siz stp off i = true ->
  cfg_siz i = siz /\ cfg_stp i = stp /\ cfg_off i = off.
Proof. unfold phase_cfg. lia. Qed.

(** The pointer inside a burst: it restarts from [cfg_off] at every period
    start and advances modulo [cfg_siz + 1] on every other tick of the
    period. *)
Lemma burst_phase (bnm bln siz stp off : Z) (f : nat -> inputs) (s : state) :
  0 <= bnm < 2 ^ 16 -> 0 <= bln < 2 ^ 32 ->
  wf_state s = true -> (forall t, wf_inputs (f t) = true) ->
  sts_run s = false -> trg (f O) = true ->
  (forall t, burst_cfg bnm bln (f t) = true) ->
  (forall t, trg (f (S t)) = false) ->
  (forall t, phase_cfg siz stp off (f t) = true) ->
  0 <= stp <= siz -> 0 <= off <= siz ->
  forall t : nat,
    Z.of_nat t < (bnm + 1) * (bln + 1) ->
    ptr_cur (exec f (S t) s) =
      (off + Z.of_nat t mod (bln + 1) * (stp + 1)) mod (siz + 1).
Proof.
  intros Hk HL Hs Hf Hidle Htrg Hcfg Hquiet Hph Hstp Hoff.
  induction t as [| t IH]; intros Hin.
  - cbn [exec].
    destruct (burst_tick bnm bln s (f O) (Hcfg O)) as (_ & _ & _ & Hp & _).
    rewrite Hp by (unfold sts_trg; rewrite Hidle; exact Htrg).
    destruct (phase_cfg_spec _ _ _ _ (Hph O)) as (_ & _ & Ho). rewrite Ho.
    change (Z.of_nat 0) with 0. rewrite Z.mod_0_l by lia.
    rewrite Z.mod_small; lia.
  - assert (Hin0 : Z.of_nat t < (bnm + 1) * (bln + 1)) by lia.
    specialize (IH Hin0).
    destruct (burst_counters bnm bln f s Hk HL Hidle Htrg Hcfg Hquiet t)
      as [Hc _].
    destruct (Hc Hin0) as (Hr & _ & Hl).
    pose proof (exec_wf f (S t) s Hs Hf) as Hwf.
    remember (exec f (S t) s) as st eqn:Est.
    change (exec f (S (S t)) s) with (step (exec f (S t) s) (f (S t))).
    rewrite <- Est.
    destruct (phase_cfg_spec _ _ _ _ (Hph (S t))) as (Hsz & Hst & Ho).
    destruct (burst_cfg_spec _ _ _ (Hcfg (S t))) as (Hrs & Hcl & _).
    pose proof (divmod_succ (Z.of_nat t) (bln + 1) ltac:(lia) ltac:(lia))
      as Hds.
    pose proof (Z.mod_pos_bound (off + Z.of_nat t mod (bln + 1) * (stp + 1))
                  (siz + 1) ltac:(lia)) as Hb.
    replace (Z.of_nat (S t)) with (Z.of_nat t + 1) by lia.
    destruct Hds as [(Hm & _ & Hm') | (Hm & _ & Hm')]; rewrite Hm'.
    + destruct (burst_tick bnm bln st (f (S t)) (Hcfg (S t)))
        as (_ & _ & _ & Hp & _).
      rewrite Hp.
      * rewrite Ho. rewrite Z.mod_small; lia.
      * unfold sts_trg, sts_rpt. rewrite Hr, Hl. cbn [andb].
        apply Z.eqb_eq. lia.
    + assert (Hnt : sts_trg st (f (S t)) = false).
      { unfold sts_trg, sts_rpt. rewrite Hr, Hl. cbn [andb].
        apply Z.eqb_neq. lia. }
      rewrite step_ptr_mod; try assumption; try apply Hf; try lia.
      rewrite Hst, Hsz, IH. rewrite Z.add_mod_idemp_l by lia.
      f_equal. lia.
Qed.

(** Every period of a burst starts from [cfg_off], whatever the pointer
    configuration. *)
Lemma burst_period_start (bnm bln : Z) (f : nat -> inputs) (s : state) :
  0 <= bnm < 2 ^ 16 -> 0 <= bln < 2 ^ 32 ->
  sts_run s = false -> trg (f O) = true ->
  (forall t, burst_cfg bnm bln (f t) = true) ->
  (forall t, trg (f (S t)) = false) ->
  forall t : nat,
    Z.of_nat t < (bnm + 1) * (bln + 1) ->
    Z.of_nat t mod (bln + 1) = 0 ->
    ptr_cur (exec f (S t) s) = cfg_off (f t).
Proof.
  intros Hk HL Hidle Htrg Hcfg Hquiet t Hin Hm0.
  destruct t as [| t].
  - cbn [exec].
    destruct (burst_tick bnm bln s (f O) (Hcfg O)) as (_ & _ & _ & Hp & _).
    apply Hp. unfold sts_trg. rewrite Hidle. exact Htrg.
  - assert (Hin0 : Z.of_nat t < (bnm + 1) * (bln + 1)) by lia.
    destruct (burst_counters bnm bln f s Hk HL Hidle Htrg Hcfg Hquiet t)
      as [Hc _].
    destruct (Hc Hin0) as (Hr & _ & Hl).
    pose proof (divmod_succ (Z.of_nat t) (bln + 1) ltac:(lia) ltac:(lia))
      as Hds.
    pose proof (Z.mod_pos_bound (Z.of_nat t) (bln + 1) ltac:(lia)) as Hmb.
    replace (Z.of_nat (S t)) with (Z.of_nat t + 1) in Hm0 by lia.
    assert (Hlast : Z.of_nat t mod (bln + 1) = bln)
      by (destruct Hds as [(Hm & _ & _) | (_ & _ & Hm')]; lia).
    change (exec f (S (S t)) s) with (step (exec f (S t) s) (f (S t))).
    destruct (burst_tick bnm bln (exec f (S t) s) (f (S t)) (Hcfg (S t)))
      as (_ & _ & _ & Hp & _).
    apply Hp. unfold sts_trg, sts_rpt. rewrite Hr, Hl. cbn [andb].
    apply Z.eqb_eq. lia.
Qed.

(** C6 (amended).  In burst mode with [cfg_bdl = 3], [cfg_bln = 7],
    [cfg_bnm = 2] and a single arming trigger received while idle, the
    generator plays three periods of 8 ticks each ([cfg_bln + 1]): it runs on
    exactly the 24 ticks after the trigger and every period starts with the
    pointer at [cfg_off], whatever the pointer configuration.  When
    [cfg_off] and [cfg_stp] are not above [cfg_siz], the pointer advances
    over the first 4 ticks of each period by [cfg_stp + 1] per tick modulo
    [cfg_siz + 1]. *)
Theorem burst_example (siz stp off : Z) (f : nat -> inputs) (s : state) :
  sts_run s = false -> trg (f O) = true ->
  (forall t, burst_cfg 2 7 (f t) = true) ->
  (forall t, cfg_bdl (f t) = 3) ->
  (forall t, trg (f (S t)) = false) ->
  (forall t, phase_cfg siz stp off (f t) = true) ->
  forall t : nat,
    sts_run (exec f (S t) s) = (Z.of_nat t <? 3 * 8) /\
    (Z.of_nat t < 3 * 8 ->
     cnt_bnm (exec f (S t) s) = 2 - Z.of_nat t / 8 /\
     cnt_bln (exec f (S t) s) = 7 - Z.of_nat t mod 8) /\
    (Z.of_nat t < 3 * 8 -> Z.of_nat t mod 8 = 0 ->
     ptr_cur (exec f (S t) s) = off) /\
    (wf_state s = true -> (forall u, wf_inputs (f u) = true) ->
     0 <= stp <= siz -> 0 <= off <= siz ->
     Z.of_nat t < 3 * 8 -> Z.of_nat t mod 8 <= 3 ->
     ptr_cur (exec f (S t) s) =
       (off + Z.of_nat t mod 8 * (stp + 1)) mod (siz + 1)).
Proof.
  intros Hidle Htrg Hcfg Hbdl Hquiet Hph t.
  assert (Hk : 0 <= 2 < 2 ^ 16) by lia.
  assert (HL : 0 <= 7 < 2 ^ 32) by lia.
  destruct (burst_counters 2 7 f s Hk HL Hidle Htrg Hcfg Hquiet t)
    as [Hin Hout].
  change ((2 + 1) * (7 + 1)) with (3 * 8) in Hin, Hout.
  change (7 + 1) with 8 in Hin.
  split; [| split; [| split]].
  - destruct (Z.ltb_spec (Z.of_nat t) (3 * 8)) as [Hlt | Hge].
    + apply (Hin Hlt).
    + apply (Hout Hge).
  - intros Hlt. destruct (Hin Hlt) as (_ & Hb & Hl). split; assumption.
  - intros Hlt Hm0.
    rewrite (burst_period_start 2 7 f s Hk HL Hidle Htrg Hcfg Hquiet t Hlt
               Hm0).
    destruct (phase_cfg_spec _ _ _ _ (Hph t)) as (_ & _ & Ho). exact Ho.
  - intros Hs Hf Hstp Hoff Hlt _.
    exact (burst_phase 2 7 siz stp off f s Hk HL Hs Hf Hidle Htrg Hcfg
             Hquiet Hph Hstp Hoff t Hlt).
Qed.

(** *** Periodic mode *)

Lemma periodic_cfg_spec (i : inputs) :
  periodic_cfg i = true ->
  sto_rstn i = true /\ ctl_rst i = false /\ cfg_ben i = false.
Proof.
  unfold periodic_cfg. intros H.
  repeat (apply andb_prop in H; destruct H as [H ?]).
  repeat split; try assumption; apply negb_true_iff; assumption.
Qed.

(** The state machine registers after a periodic-mode tick. *)
Lemma periodic_tick (s : state) (i : inputs) :
  periodic_cfg i = true ->
  sts_run (step s i) = (if sts_trg s i then true else sts_run s) /\
  cnt_bln (step s i) = cnt_bln s /\
  cnt_bnm (step s i) = cnt_bnm s /\
  (sts_trg s i = true -> ptr_cur (step s i) = cfg_off i) /\
  sts_vld (step s i) = sts_run s /\
  sto_vld (step s i) = sts_vld s /\
  trg_o (step s i) = sts_trg s i.
Proof.
  intros H. apply periodic_cfg_spec in H. destruct H as (Hr & Hc & Hben).
  cbn [step sts_run cnt_bnm cnt_bln ptr_cur sts_vld sto_vld trg_o].
  unfold next_fsm, next_ptr_cur, next_sts_vld, next_sto_vld,
    next_trg_o.
  rewrite Hr, Hc, Hben. cbn [negb].
  destruct (sts_trg s i); cbn [fsm_run fsm_bnm fsm_bln]; repeat split;
    intros; discriminate.
Qed.

(** Periodic playback started from an idle generator whose burst length
    counter is not zero: it runs for good, no start event fires again, and
    the pointer advances modulo [cfg_siz + 1] from [cfg_off]. *)
Lemma periodic_run (siz stp off : Z) (f : nat -> inputs) (s : state) :
  wf_state s = true -> (forall t, wf_inputs (f t) = true) ->
  sts_run s = false -> cnt_bln s <> 0 -> trg (f O) = true ->
  (forall t, periodic_cfg (f t) = true) ->
  (forall t, phase_cfg siz stp off (f t) = true) ->
  0 <= stp <= siz -> 0 <= off <= siz ->
  forall t : nat,
    sts_run (exec f (S t) s) = true /\
    cnt_bln (exec f (S t) s) = cnt_bln s /\
    ptr_cur (exec f (S t) s) = (off + Z.of_nat t * (stp + 1)) mod (siz + 1).
Proof.
  intros Hs Hf Hidle Hbln Htrg Hcfg Hph Hstp Hoff.
  induction t as [| t IH].
  - cbn [exec].
    destruct (periodic_tick s (f O) (Hcfg O)) as (Hr & Hl & _ & Hp & _).
    assert (Hst : sts_trg s (f O) = true)
      by (unfold sts_trg; rewrite Hidle; exact Htrg).
    rewrite Hr, Hl, (Hp Hst), Hst.
    destruct (phase_cfg_spec _ _ _ _ (Hph O)) as (_ & _ & Ho). rewrite Ho.
    repeat split. change (Z.of_nat 0) with 0. rewrite Z.mod_small; lia.
  - destruct IH as (IHr & IHl & IHp).
    pose proof (exec_wf f (S t) s Hs Hf) as Hwf.
    remember (exec f (S t) s) as st eqn:Est.
    change (exec f (S (S t)) s) with (step (exec f (S t) s) (f (S t))).
    rewrite <- Est.
    destruct (periodic_tick st (f (S t)) (Hcfg (S t))) as (Hr & Hl & _).
    destruct (phase_cfg_spec _ _ _ _ (Hph (S t))) as (Hsz & Hst & Ho).
    destruct (periodic_cfg_spec _ (Hcfg (S t))) as (Hrs & Hcl & _).
    assert (Hnt : sts_trg st (f (S t)) = false).
    { unfold sts_trg, sts_rpt. rewrite IHr. cbn [andb].
      apply Z.eqb_neq. lia. }
    rewrite Hr, Hl, Hnt, IHr, IHl. repeat split.
    pose proof (Z.mod_pos_bound (off + Z.of_nat t * (stp + 1))
                  (siz + 1) ltac:(lia)) as Hb.
    rewrite step_ptr_mod; try assumption; try apply Hf; try lia.
    rewrite Hst, Hsz, IHp. rewrite Z.add_mod_idemp_l by lia.
    f_equal. lia.
Qed.

(** Periodic playback started while [cnt_bln] is zero, as hardware reset and
    the synchronous clear leave it: [sts_rpt] holds on every running tick, so
    a start event fires every tick and the pointer is reloaded with [cfg_off]
    instead of advancing. *)
Lemma periodic_restarts_when_bln_zero (f : nat -> inputs) (s : state) :
  sts_run s = false -> cnt_bln s = 0 -> trg (f O) = true ->
  (forall t, periodic_cfg (f t) = true) ->
  forall t : nat,
    sts_run (exec f (S t) s) = true /\
    cnt_bln (exec f (S t) s) = 0 /\
    ptr_cur (exec f (S t) s) = cfg_off (f t) /\
    trg_o (exec f (S t) s) = true.
Proof.
  intros Hidle Hbln Htrg Hcfg. induction t as [| t IH].
  - cbn [exec].
    destruct (periodic_tick s (f O) (Hcfg O))
      as (Hr & Hl & _ & Hp & _ & _ & Ho).
    assert (Hst : sts_trg s (f O) = true)
      by (unfold sts_trg; rewrite Hidle; exact Htrg).
    rewrite Hr, Hl, (Hp Hst), Ho, Hst. repeat split. exact Hbln.
  - destruct IH as (IHr & IHl & _).
    change (exec f (S (S t)) s) with (step (exec f (S t) s) (f (S t))).
    destruct (periodic_tick (exec f (S t) s) (f (S t)) (Hcfg (S t)))
      as (Hr & Hl & _ & Hp & _ & _ & Ho).
    assert (Hst : sts_trg (exec f (S t) s) (f (S t)) = true)
      by (unfold sts_trg, sts_rpt; rewrite IHr, IHl; reflexivity).
    rewrite Hr, Hl, (Hp Hst), Ho, Hst. repeat split. exact IHl.
Qed.

(** C2 (amended).  Periodic mode with a table of 10 samples and unit stride
    in pointer units, [cfg_siz = 10 * 2^CWF - 1], [cfg_stp = 2^CWF - 1],
    [cfg_off = 0], started by a matching trigger while idle with [cnt_bln]
    not zero.  Counting ticks from the first tick on which the generator
    runs: it runs on every tick, the read address at tick [t] is [t mod 10]
    (0,1,...,9,0,1,... with period 10), [sts_vld] is high from tick 1 on and
    [sto.vld] is low on tick 1 and high from tick 2 on. *)
Theorem periodic_example (f : nat -> inputs) (s : state) :
  wf_state s = true -> (forall t, wf_inputs (f t) = true) ->
  sts_run s = false -> cnt_bln s <> 0 -> trg (f O) = true ->
  (forall t, periodic_cfg (f t) = true) ->
  (forall t,
     phase_cfg (10 * 2 ^ Z.of_N CWF - 1) (2 ^ Z.of_N CWF - 1) 0 (f t)
     = true) ->
  forall t : nat,
    sts_run (exec f (S t) s) = true /\
    ptr_cur (exec f (S t) s) = Z.of_nat t mod 10 * 2 ^ Z.of_N CWF /\
    ptr_addr (ptr_cur (exec f (S t) s)) = Z.of_nat t mod 10 /\
    sts_vld (exec f (S t) s) = (1 <=? Z.of_nat t) /\
    sto_vld (exec f (S (S t)) s) = (2 <=? Z.of_nat (S t)).
Proof.
  intros Hs Hf Hidle Hbln Htrg Hcfg Hph t.
  assert (Hp2 : 0 < 2 ^ Z.of_N CWF) by (apply Z.pow_pos_nonneg; lia).
  pose proof (periodic_run _ _ _ f s Hs Hf Hidle Hbln Htrg Hcfg Hph
                ltac:(lia) ltac:(lia)) as Hrun.
  assert (Hvld : forall u, sts_vld (exec f (S u) s) = (1 <=? Z.of_nat u)).
  { intros [| u].
    - cbn [exec].
      destruct (periodic_tick s (f O) (Hcfg O)) as (_ & _ & _ & _ & Hv & _ & _).
      rewrite Hv, Hidle. reflexivity.
    - change (exec f (S (S u)) s) with (step (exec f (S u) s) (f (S u))).
      destruct (periodic_tick (exec f (S u) s) (f (S u)) (Hcfg (S u)))
        as (_ & _ & _ & _ & Hv & _ & _).
      rewrite Hv. destruct (Hrun u) as (Hr & _). rewrite Hr.
      symmetry. apply Z.leb_le. lia. }
  destruct (Hrun t) as (Hr & _ & Hp).
  assert (Hptr : ptr_cur (exec f (S t) s)
                 = Z.of_nat t mod 10 * 2 ^ Z.of_N CWF).
  { rewrite Hp.
    replace (0 + Z.of_nat t * (2 ^ Z.of_N CWF - 1 + 1))
      with (Z.of_nat t * 2 ^ Z.of_N CWF) by lia.
    replace (10 * 2 ^ Z.of_N CWF - 1 + 1) with (10 * 2 ^ Z.of_N CWF) by lia.
    apply Z.mul_mod_distr_r; lia. }
  split; [exact Hr |]. split; [exact Hptr |]. split; [| split].
  - pose proof (exec_wf f (S t) s Hs Hf) as Hwf.
    apply wf_state_spec in Hwf.
    rewrite ptr_addr_small by lia. rewrite Hptr.
    apply Z.div_mul. lia.
  - apply Hvld.
  - change (exec f (S (S t)) s) with (step (exec f (S t) s) (f (S t))).
    destruct (periodic_tick (exec f (S t) s) (f (S t)) (Hcfg (S t)))
      as (_ & _ & _ & _ & _ & Hv & _).
    rewrite Hv, Hvld.
    destruct (Z.leb_spec 1 (Z.of_nat t));
      destruct (Z.leb_spec 2 (Z.of_nat (S t))); lia.
Qed.

(** *** Triggers while running *)

Lemma step_with_trg_running (s : state) (i : inputs) (ti ct : Z) :
  sts_run s = true -> step s (with_trg i ti ct) = step s i.
Proof.
  intros Hrun. unfold step.
  unfold next_buf_mem, next_bus_rdata, next_bus_ack, next_sts_vld,
    next_ptr_cur, next_trg_o, next_sto_vld, next_fsm, sts_trg,
    ptr_nxt_sub_neg, ptr_nxt_sub, ptr_nxt.
  cbn [with_trg sto_rstn ctl_rst cfg_siz cfg_stp cfg_off cfg_ben cfg_inf
       cfg_bln cfg_bnm bus_rstn bus_wen bus_ren bus_addr bus_wdata].
  rewrite Hrun. reflexivity.
Qed.

(** C7.  While the generator is running inside a burst period ([sts_run]
    true and [cnt_bln] not zero on every tick considered), the trigger lines
    and the trigger mask have no effect: replacing them on every tick by any
    other values leaves all registers, among them [ptr_cur], [cnt_bln],
    [cnt_bnm] and [sts_run], the same after every tick. *)
Theorem no_preemption_while_running
    (f : nat -> inputs) (ti ct : nat -> Z) (n : nat) (s : state) :
  mid_period CWM CWF DW f n s = true ->
  exec (fun t => with_trg (f t) (ti t) (ct t)) n s = exec f n s.
Proof.
  induction n as [| m IH]; intros Hq.
  - reflexivity.
  - cbn [mid_period] in Hq.
    apply andb_prop in Hq. destruct Hq as [Hq Hz].
    apply andb_prop in Hq. destruct Hq as [Hq Hrun].
    cbn [exec]. rewrite (IH Hq).
    apply step_with_trg_running. exact Hrun.
Qed.

(** *** Synchronous clear *)

(** C8 (amended).  Whatever the registers and the other inputs are, a tick
    with [ctl_rst] asserted leaves [sts_vld] and [sto.vld] low, [sts_run]
    false, both burst counters and [ptr_cur] at zero, start event or not.
    The trigger notification [trg_o] is forced low by the hardware reset
    [sto.rstn]. *)
Theorem ctl_rst_clears (s : state) (i : inputs) :
  ctl_rst i = true ->
  sts_vld (step s i) = false /\ sto_vld (step s i) = false /\
  sts_run (step s i) = false /\
  cnt_bln (step s i) = 0 /\ cnt_bnm (step s i) = 0 /\
  ptr_cur (step s i) = 0 /\
  (sto_rstn i = false -> trg_o (step s i) = false).
Proof.
  intros Hc.
  cbn [step sts_vld sto_vld sts_run cnt_bln cnt_bnm ptr_cur trg_o].
  unfold next_sts_vld, next_sto_vld, next_fsm, next_ptr_cur,
    next_trg_o.
  rewrite Hc. destruct (sto_rstn i); cbn; repeat split; try reflexivity.
  intros H. discriminate H.
Qed.

(** Under the synchronous clear alone [trg_o] still registers the start
    event of the tick. *)
Lemma trg_o_registers_start_event (s : state) (i : inputs) :
  sto_rstn i = true -> trg_o (step s i) = sts_trg s i.
Proof.
  intros Hr. cbn [step trg_o]. unfold next_trg_o. rewrite Hr. reflexivity.
Qed.

(** *** The read pipeline *)

(** C9 (amended).  With both resets released, [sts_vld] at tick [t+1] is
    [sts_run] at tick [t], and [sto.vld] at tick [t+1] is [sts_vld] at tick
    [t]: the stream valid follows the running flag after two ticks, not one.
    The read address register takes the magnitude bits of [ptr_cur] while
    running, and [sto.dat] at tick [t+1] is the table cell at the registered
    address of tick [t] whenever [sts_vld] held at tick [t] (otherwise it
    keeps its value). *)
Theorem valid_follows_running (f : nat -> inputs) (t : nat) (s : state) :
  sto_rstn (f t) = true -> ctl_rst (f t) = false ->
  sts_vld (exec f (S t) s) = sts_run (exec f t s) /\
  sto_vld (exec f (S t) s) = sts_vld (exec f t s) /\
  buf_raddr (exec f (S t) s) =
    (if sts_run (exec f t s) then ptr_addr (ptr_cur (exec f t s))
     else buf_raddr (exec f t s)) /\
  out_sto_dat (out KN (exec f (S t) s)) =
    (if sts_vld (exec f t s)
     then buf_mem (exec f t s) (buf_raddr (exec f t s))
     else out_sto_dat (out KN (exec f t s))) /\
  (sto_rstn (f (S t)) = true -> ctl_rst (f (S t)) = false ->
   sto_vld (exec f (S (S t)) s) = sts_run (exec f t s)).
Proof.
  intros Hr Hc. cbn [exec].
  set (st := exec f t s).
  cbn [step out sts_vld sto_vld buf_raddr buf_rdata
       out_sto_dat].
  unfold next_sts_vld, next_sto_vld, next_buf_raddr, next_buf_rdata.
  rewrite Hr, Hc. cbn [negb].
  repeat split. intros Hr' Hc'. rewrite Hr', Hc'.
  cbn [negb step sts_vld]. unfold next_sts_vld.
  rewrite Hr, Hc. reflexivity.
Qed.

(** *** The burst data length *)

(** C10.  The configuration port [cfg_bdl] is read by no block of the module:
    two runs whose inputs differ at most in [cfg_bdl], tick by tick, hold the
    same registers and drive the same outputs at every tick. *)
Theorem cfg_bdl_has_no_influence
    (f : nat -> inputs) (bdl : nat -> Z) (n : nat) (s : state) :
  exec (fun t => with_bdl (f t) (bdl t)) n s = exec f n s /\
  out KN (exec (fun t => with_bdl (f t) (bdl t)) n s) = out KN (exec f n s).
Proof.
  assert (H : exec (fun t => with_bdl (f t) (bdl t)) n s = exec f n s).
  { induction n as [| m IH].
    - reflexivity.
    - cbn [exec]. rewrite IH. reflexivity. }
  split; [exact H | rewrite H; reflexivity].
Qed.

End Properties.

(** ** The default instance at work *)

Example burst_started_regs :
  sts_run burst_started = true /\ ptr_cur burst_started = 0 /\
  cnt_bln burst_started = 7 /\ cnt_bnm burst_started = 2.
Proof. vm_compute. repeat split. Qed.

Example idle_after_burst_regs :
  sts_run idle_after_burst = false /\ cnt_bln idle_after_burst = 7 /\
  sts_vld idle_after_burst = false.
Proof. vm_compute. repeat split. Qed.

(** *** C1: the phase accumulator *)

(** One sample of stride inside the table: 0 becomes 65536 (1.0). *)
Lemma phase_accumulator_update_witness :
  ptr_cur (step 14 16 8 burst_started burst_hold) = 65536.
Proof.
  pose proof (phase_accumulator_update 14 16 8 burst_started burst_hold)
    as H.
  cbv zeta in H.
  specialize (H ltac:(by_eval) ltac:(by_eval) ltac:(by_eval) ltac:(by_eval)
                ltac:(by_eval) ltac:(by_eval)).
  destruct H as (H & _ & _).
  rewrite H by by_eval. reflexivity.
Defined.

(** From the top of the pointer range with size 0 and step 1: [next] is
    [2^30 + 1], no borrow occurs, [reduced] is [2^30], yet bit 30 of
    [reduced] is set and [next] (cut to 30 bits: 1) is loaded, not [reduced]
    (cut to 30 bits: 0). *)
Lemma phase_update_counterexample :
  sts_run edge_started = true /\ sts_trg edge_started edge_hold = false /\
  sto_rstn edge_hold = true /\ ctl_rst edge_hold = false /\
  ptr_cur edge_started = 2 ^ 30 - 1 /\
  cfg_siz edge_hold + 1 <= ptr_cur edge_started + (cfg_stp edge_hold + 1) /\
  ptr_cur (step 14 16 8 edge_started edge_hold) = 1 /\
  (ptr_cur edge_started + (cfg_stp edge_hold + 1) - (cfg_siz edge_hold + 1))
    mod 2 ^ 30 = 0 /\
  ptr_cur (step 14 16 8 edge_started edge_hold) <>
    (ptr_cur edge_started + (cfg_stp edge_hold + 1) - (cfg_siz edge_hold + 1))
      mod 2 ^ 30.
Proof. vm_compute. repeat split; discriminate. Qed.

(** *** C2: periodic playback of 10 samples *)

Lemma periodic_example_witness :
  ptr_addr 14 16 (ptr_cur (exec 14 16 8 periodic10_wave 12 idle_after_burst))
    = 1 /\
  sto_vld (exec 14 16 8 periodic10_wave 2 idle_after_burst) = false /\
  sto_vld (exec 14 16 8 periodic10_wave 3 idle_after_burst) = true.
Proof.
  assert (H : forall t : nat,
             sts_run (exec 14 16 8 periodic10_wave (S t) idle_after_burst)
               = true /\
             ptr_cur (exec 14 16 8 periodic10_wave (S t) idle_after_burst)
               = Z.of_nat t mod 10 * 2 ^ Z.of_N 16 /\
             ptr_addr 14 16
               (ptr_cur (exec 14 16 8 periodic10_wave (S t) idle_after_burst))
               = Z.of_nat t mod 10 /\
             sts_vld (exec 14 16 8 periodic10_wave (S t) idle_after_burst)
               = (1 <=? Z.of_nat t) /\
             sto_vld
               (exec 14 16 8 periodic10_wave (S (S t)) idle_after_burst)
               = (2 <=? Z.of_nat (S t))).
  { apply (periodic_example 14 16 8 periodic10_wave idle_after_burst);
      by_eval. }
  split; [| split].
  - destruct (H 11%nat) as (_ & _ & Ha & _). rewrite Ha. reflexivity.
  - destruct (H 0%nat) as (_ & _ & _ & _ & Hv). rewrite Hv. reflexivity.
  - destruct (H 1%nat) as (_ & _ & _ & _ & Hv). rewrite Hv. reflexivity.
Defined.

(** With the register values 9, 0, 0 and the default [u14.16] pointer, the
    pointer counts 0..9 in units of [2^-16] sample and the read address stays
    0, from reset and after a burst alike; with a table of 10 samples and
    step register 0 the address stays 0 for [2^16] ticks.  Started from the
    reset registers ([cnt_bln] zero) the address stays 0 whatever the units:
    without fraction bits ([CWF = 0]), and with size and step both scaled. *)
Lemma periodic_literal_counterexample :
  sts_run reset_state = false /\ trg literal10_arm = true /\
  read_addresses 14 16 8 literal10_wave reset_state 12 =
    [0; 0; 0; 0; 0; 0; 0; 0; 0; 0; 0; 0] /\
  read_addresses 14 16 8 literal10_wave idle_after_burst 12 =
    [0; 0; 0; 0; 0; 0; 0; 0; 0; 0; 0; 0] /\
  read_addresses 14 16 8 slow10_wave idle_after_burst 12 =
    [0; 0; 0; 0; 0; 0; 0; 0; 0; 0; 0; 0] /\
  read_addresses 14 0 8 literal10_wave reset_state 12 =
    [0; 0; 0; 0; 0; 0; 0; 0; 0; 0; 0; 0] /\
  read_addresses 14 16 8 periodic10_wave reset_state 12 =
    [0; 0; 0; 0; 0; 0; 0; 0; 0; 0; 0; 0] /\
  read_addresses 14 16 8 literal10_wave reset_state 12 <>
    [0; 1; 2; 3; 4; 5; 6; 7; 8; 9; 0; 1].
Proof. vm_compute. repeat split; discriminate. Qed.

(** *** C3: the frequency law *)

Lemma frequency_law_witness :
  ptr_cur (exec 14 16 8 (fun _ => periodic10_hold) 12 periodic10_started)
    = 2 * 2 ^ 16.
Proof.
  rewrite (frequency_law 14 16 8 (fun _ => periodic10_hold) 12
             periodic10_started (2 ^ 16 - 1) (10 * 2 ^ 16 - 1));
    by_eval.
Defined.

(** Size 9, step 0, ten free-running ticks from phase 0: the pointer is back
    at 0, where an advance modulo [(9 + 1) * 2^16] would leave it at 10.  And
    from the top of the pointer range, with a table of 3 samples and the
    largest step, one tick leaves the pointer where it was, while
    [cfg_stp + 1] is not a multiple of the table length. *)
Lemma frequency_literal_counterexample :
  ptr_cur literal10_started = 0 /\
  free_running 14 16 8 (fun _ => literal10_hold) 10 literal10_started 0 9
    = true /\
  ptr_cur (exec 14 16 8 (fun _ => literal10_hold) 10 literal10_started) = 0 /\
  (ptr_cur literal10_started + 10 * (0 + 1)) mod ((9 + 1) * 2 ^ 16) = 10 /\
  free_running 14 16 8 (fun _ => edge3_hold) 1 edge_started
    (2 ^ 30 - 1) (3 * 2 ^ 16 - 1) = true /\
  ptr_cur (exec 14 16 8 (fun _ => edge3_hold) 1 edge_started)
    = ptr_cur edge_started /\
  (1 * (cfg_stp edge3_hold + 1)) mod (cfg_siz edge3_hold + 1) = 2 ^ 16.
Proof. vm_compute. repeat split. Qed.

(** *** C4: wraparound *)

Lemma wraparound_witness :
  0 <= ptr_cur (step 14 16 8 burst_started burst_hold) <= 2 ^ 30 - 1 /\
  ptr_cur (step 14 16 8 burst_started burst_hold) =
    (0 + (2 ^ 16 - 1 + 1)) mod 2 ^ 30.
Proof.
  pose proof (wraparound 14 16 8 burst_started burst_hold) as H.
  specialize (H ltac:(by_eval) ltac:(by_eval) ltac:(by_eval) ltac:(by_eval)
                ltac:(by_eval) ltac:(by_eval)).
  destruct H as (Ha & Hb).
  split.
  - apply Ha; by_eval.
  - apply Hb. by_eval.
Defined.

(** Pointer 0 and step [2^30 - 2]: with size 0 the new read address is
    16383, and with a table of 2 samples ([cfg_siz = 2 * 2^16 - 1]) it is
    16381.  And with [cfg_siz + 1 = 2^14] the pointer wraps from 16383 to 0,
    where the overflow of the 30-bit register would give 16384. *)
Lemma wraparound_counterexample :
  sts_run burst_started = true /\
  sts_trg burst_started overstep_hold = false /\
  cfg_siz overstep_hold = 0 /\
  ptr_cur burst_started < cfg_siz overstep_hold + 1 /\
  ptr_addr 14 16 (ptr_cur (step 14 16 8 burst_started overstep_hold))
    = 16383 /\
  cfg_siz overstep2_hold / 2 ^ 16 = 1 /\
  ptr_addr 14 16 (ptr_cur (step 14 16 8 burst_started overstep2_hold))
    = 16381 /\
  sts_run small_started = true /\
  sts_trg small_started small_hold = false /\
  cfg_siz small_hold + 1 = 2 ^ 14 /\
  ptr_cur small_started < cfg_siz small_hold + 1 /\
  ptr_cur (step 14 16 8 small_started small_hold) = 0 /\
  (ptr_cur small_started + (cfg_stp small_hold + 1)) mod 2 ^ 30 = 16384.
Proof. vm_compute. repeat split. Qed.

(** *** C5: the number of burst periods *)

(** Three periods of eight ticks: running on tick 24, idle on tick 25. *)
Lemma burst_repeat_exact_witness :
  sts_run (exec 14 16 8 burst_wave 24 reset_state) = true /\
  cnt_bnm (exec 14 16 8 burst_wave 24 reset_state) = 0 /\
  cnt_bln (exec 14 16 8 burst_wave 24 reset_state) = 0 /\
  sts_run (exec 14 16 8 burst_wave 25 reset_state) = false.
Proof.
  pose proof (burst_repeat_exact 14 16 8 2 7 burst_wave reset_state) as H.
  specialize (H ltac:(by_eval) ltac:(by_eval) ltac:(by_eval) ltac:(by_eval)
                ltac:(by_eval) ltac:(by_eval)).
  destruct (H 23%nat) as (Hr & Hc & _).
  destruct (Hc ltac:(by_eval)) as (Hb & Hl).
  destruct (H 24%nat) as (Hr' & _).
  rewrite Hr, Hb, Hl, Hr'. repeat split.
Defined.

(** *** C6: the burst example *)

Lemma burst_example_witness :
  sts_run (exec 14 16 8 burst_wave 24 reset_state) = true /\
  sts_run (exec 14 16 8 burst_wave 25 reset_state) = false /\
  ptr_cur (exec 14 16 8 burst_wave 9 reset_state) = 0 /\
  ptr_cur (exec 14 16 8 burst_wave 12 reset_state) = 3 * 2 ^ 16.
Proof.
  pose proof (burst_example 14 16 8 (2 ^ 30 - 1) (2 ^ 16 - 1) 0
                burst_wave reset_state) as H.
  specialize (H ltac:(by_eval) ltac:(by_eval) ltac:(by_eval) ltac:(by_eval)
                ltac:(by_eval) ltac:(by_eval)).
  destruct (H 23%nat) as (Hr & _).
  destruct (H 24%nat) as (Hr' & _).
  destruct (H 8%nat) as (_ & _ & Hs & _).
  destruct (H 11%nat) as (_ & _ & _ & Hp).
  rewrite Hr, Hr'.
  rewrite (Hs ltac:(by_eval) ltac:(by_eval)).
  rewrite (Hp ltac:(by_eval) ltac:(by_eval) ltac:(lia) ltac:(lia)
              ltac:(by_eval) ltac:(by_eval)).
  repeat split.
Defined.

(** With [cfg_bdl = 3], [cfg_bln = 7], [cfg_bnm = 2] each period takes eight
    ticks, not seven, and the read address keeps advancing through all eight:
    it is 4 on the fifth tick of the period, and the generator still runs on
    ticks 22 to 24 after the trigger. *)
Lemma burst_example_counterexample :
  cfg_bdl burst_arm = 3 /\ cfg_bln burst_arm = 7 /\ cfg_bnm burst_arm = 2 /\
  read_addresses 14 16 8 burst_wave reset_state 24 =
    [0; 1; 2; 3; 4; 5; 6; 7;
     0; 1; 2; 3; 4; 5; 6; 7;
     0; 1; 2; 3; 4; 5; 6; 7] /\
  running_flags 14 16 8 burst_wave reset_state 26 =
    [true; true; true; true; true; true; true; true;
     true; true; true; true; true; true; true; true;
     true; true; true; true; true; true; true; true;
     false; false] /\
  read_addresses 14 16 8 burst_wave reset_state 21 <>
    [0; 1; 2; 3; 3; 3; 3;
     0; 1; 2; 3; 3; 3; 3;
     0; 1; 2; 3; 3; 3; 3].
Proof. vm_compute. repeat split; discriminate. Qed.

(** *** C7: triggers while running *)

Lemma no_preemption_while_running_witness :
  exec 14 16 8 (fun t => with_trg (burst_hold) 1 1) 7 burst_started =
  exec 14 16 8 (fun _ => burst_hold) 7 burst_started.
Proof.
  apply (no_preemption_while_running 14 16 8 (fun _ => burst_hold)
           (fun _ => 1) (fun _ => 1) 7 burst_started).
  by_eval.
Defined.

(** *** C8: the synchronous clear *)

Lemma ctl_rst_clears_witness :
  sts_run (step 14 16 8 burst_started (with_ctl_rst burst_arm)) = false /\
  ptr_cur (step 14 16 8 burst_started (with_ctl_rst burst_arm)) = 0 /\
  cnt_bln (step 14 16 8 burst_started (with_ctl_rst burst_arm)) = 0.
Proof.
  pose proof (ctl_rst_clears 14 16 8 burst_started (with_ctl_rst burst_arm))
    as H.
  specialize (H ltac:(by_eval)).
  destruct H as (_ & _ & Hr & Hl & _ & Hp & _).
  rewrite Hr, Hl, Hp. repeat split.
Defined.

(** A trigger on the tick of the synchronous clear, generator idle: the
    generator stays idle and [trg_o] goes high all the same. *)
Lemma ctl_rst_counterexample :
  ctl_rst (with_ctl_rst burst_arm) = true /\
  sto_rstn (with_ctl_rst burst_arm) = true /\
  sts_run (step 14 16 8 reset_state (with_ctl_rst burst_arm)) = false /\
  trg_o (step 14 16 8 reset_state (with_ctl_rst burst_arm)) = true.
Proof. vm_compute. repeat split. Qed.

(** *** C9: valid and running *)

Lemma valid_follows_running_witness :
  sts_vld (exec 14 16 8 burst_wave 2 reset_state) = true /\
  sto_vld (exec 14 16 8 burst_wave 3 reset_state) = true.
Proof.
  pose proof (valid_follows_running 14 16 8 1 burst_wave 1 reset_state) as H.
  specialize (H ltac:(by_eval) ltac:(by_eval)).
  destruct H as (Hv & _ & _ & _ & Ho).
  rewrite Hv, Ho by by_eval. repeat split.
Defined.

(** The generator runs on tick 1, both resets released, and [sto.vld] is
    still low on tick 2; it rises on tick 3. *)
Lemma valid_lag_counterexample :
  sto_rstn (burst_wave 1) = true /\ ctl_rst (burst_wave 1) = false /\
  sts_run (exec 14 16 8 burst_wave 1 reset_state) = true /\
  sto_vld (exec 14 16 8 burst_wave 2 reset_state) = false /\
  sto_vld (exec 14 16 8 burst_wave 3 reset_state) = true.
Proof. vm_compute. repeat split. Qed.

(** ** Further properties of the generator *)

Section MoreProperties.

Variables CWM CWF DW KN : N.

Local Abbreviation PW := (PW CWM CWF).
Local Abbreviation ptr_addr := (ptr_addr CWM CWF).
Local Abbreviation next_ptr_cur := (next_ptr_cur CWM CWF).
Local Abbreviation next_buf_mem := (next_buf_mem CWM DW).
Local Abbreviation next_buf_raddr := (next_buf_raddr CWM CWF).
Local Abbreviation step := (step CWM CWF DW).
Local Abbreviation exec := (exec CWM CWF DW).
Local Abbreviation wf_inputs := (wf_inputs CWM CWF).
Local Abbreviation wf_state := (wf_state CWM CWF).

(** *** The pointer and the table *)



(** *** The idle generator *)

Lemma idle_tick (s : state) (i : inputs) :
  wf_state s = true -> sts_run s = false ->
  sto_rstn i = true -> ctl_rst i = false -> trg i = false ->
  sts_run (step s i) = false /\ ptr_cur (step s i) = ptr_cur s /\
  cnt_bln (step s i) = cnt_bln s /\ cnt_bnm (step s i) = cnt_bnm s /\
  buf_raddr (step s i) = buf_raddr s /\
  sts_vld (step s i) = false /\ trg_o (step s i) = false /\
  sto_vld (step s i) = sts_vld s /\ wf_state (step s i) = true.
Proof.
  intros Hs Hidle Hr Hc Ht.
  assert (Hst : sts_trg s i = false)
    by (unfold sts_trg; rewrite Hidle; exact Ht).
  pose proof Hs as Hw. apply wf_state_spec in Hw.
  assert (H : sts_run (step s i) = false /\ ptr_cur (step s i) = ptr_cur s /\
              cnt_bln (step s i) = cnt_bln s /\
              cnt_bnm (step s i) = cnt_bnm s).
  { cbn [step sts_run ptr_cur cnt_bln cnt_bnm].
    unfold next_fsm, next_ptr_cur. rewrite Hr, Hc, Hst, Hidle. cbn [negb b2z].
    destruct (cfg_ben i); cbn [fsm_run fsm_bln fsm_bnm]; repeat split.
    rewrite Z.sub_0_r. apply Z.mod_small. lia. }
  destruct H as (H1 & H2 & H3 & H4).
  repeat split; try assumption.
  - cbn [step buf_raddr]. unfold next_buf_raddr. rewrite Hidle. reflexivity.
  - cbn [step sts_vld]. unfold next_sts_vld. rewrite Hr, Hc, Hidle.
    reflexivity.
  - cbn [step trg_o]. unfold next_trg_o. rewrite Hr, Hst. reflexivity.
  - cbn [step sto_vld]. unfold next_sto_vld. rewrite Hr, Hc. reflexivity.
  - unfold wf_state. rewrite H2, H3, H4. exact Hs.
Qed.

Lemma quiet_S (f : nat -> inputs) (m : nat) :
  quiet f (S m) = true ->
  quiet f m = true /\ sto_rstn (f m) = true /\ ctl_rst (f m) = false /\
  trg (f m) = false.
Proof.
  cbn [quiet]. intros H.
  repeat (apply andb_prop in H; destruct H as [H ?]).
  repeat split; try assumption; apply negb_true_iff; assumption.
Qed.

(** X2.  An idle generator that sees no matching trigger stays idle, in burst
    and in periodic mode, and keeps its pointer, both burst counters and the
    read address; from the first such tick on [sts_vld] and [trg_o] are low,
    and from the second on [sto.vld] is low. *)
Theorem idle_holds (f : nat -> inputs) (n : nat) (s : state) :
  wf_state s = true -> sts_run s = false -> quiet f n = true ->
  sts_run (exec f n s) = false /\
  ptr_cur (exec f n s) = ptr_cur s /\
  cnt_bln (exec f n s) = cnt_bln s /\
  cnt_bnm (exec f n s) = cnt_bnm s /\
  buf_raddr (exec f n s) = buf_raddr s /\
  ((1 <= n)%nat ->
   sts_vld (exec f n s) = false /\ trg_o (exec f n s) = false) /\
  ((2 <= n)%nat -> sto_vld (exec f n s) = false).
Proof.
  intros Hs Hidle. induction n as [| m IH]; intros Hq.
  - cbn [exec]. repeat split; try assumption; intros; lia.
  - apply quiet_S in Hq. destruct Hq as (Hq & Hr & Hc & Ht).
    destruct (IH Hq) as (I1 & I2 & I3 & I4 & I5 & I6 & _).
    assert (Hwf : wf_state (exec f m s) = true).
    { unfold wf_state. rewrite I2, I3, I4. exact Hs. }
    cbn [exec].
    destruct (idle_tick (exec f m s) (f m) Hwf I1 Hr Hc Ht)
      as (T1 & T2 & T3 & T4 & T5 & T6 & T7 & T8 & _).
    rewrite T1, T2, T3, T4, T5, T6, T7, T8.
    repeat split; try assumption.
    intros Hn. apply I6. lia.
Qed.

(** *** Reprogramming inside a period *)

Lemma step_with_start_cfg (s : state) (i : inputs) (off bln bnm : Z)
    (inf : bool) :
  sts_run s = true -> (cnt_bln s =? 0) = false ->
  step s (with_start_cfg i off bln bnm inf) = step s i.
Proof.
  intros Hrun Hz. unfold step.
  unfold next_buf_mem, next_bus_rdata, next_bus_ack, next_sts_vld,
    next_ptr_cur, next_trg_o, next_sto_vld, next_fsm, sts_trg, sts_rpt,
    ptr_nxt_sub_neg, ptr_nxt_sub, ptr_nxt.
  cbn [with_start_cfg sto_rstn ctl_rst trg_i cfg_trg cfg_siz cfg_stp cfg_off
       cfg_ben cfg_inf cfg_bln cfg_bnm bus_rstn bus_wen bus_ren bus_addr
       bus_wdata].
  rewrite Hrun, Hz. cbn [andb]. reflexivity.
Qed.

(** X3.  The start offset, the burst length, the repetition count and the
    infinite flag are read at start events only: while the generator runs
    inside a period ([cnt_bln] not zero), replacing them on every tick by any
    other values leaves all registers the same after every tick. *)
Theorem start_cfg_latched
    (f : nat -> inputs) (off bln bnm : nat -> Z) (inf : nat -> bool)
    (n : nat) (s : state) :
  mid_period CWM CWF DW f n s = true ->
  exec (fun t => with_start_cfg (f t) (off t) (bln t) (bnm t) (inf t)) n s
  = exec f n s.
Proof.
  induction n as [| m IH]; intros Hq.
  - reflexivity.
  - cbn [mid_period] in Hq.
    apply andb_prop in Hq. destruct Hq as [Hq Hz].
    apply andb_prop in Hq. destruct Hq as [Hq Hrun].
    cbn [exec]. rewrite (IH Hq).
    apply step_with_start_cfg; [exact Hrun |].
    apply negb_true_iff. exact Hz.
Qed.

(** *** Bursts with the infinite flag *)

Lemma burst_inf_cfg_spec (bnm bln : Z) (i : inputs) :
  burst_inf_cfg bnm bln i = true ->
  sto_rstn i = true /\ ctl_rst i = false /\ cfg_ben i = true /\
  cfg_inf i = true /\ cfg_bnm i = bnm /\ cfg_bln i = bln.
Proof.
  unfold burst_inf_cfg. intros H.
  repeat (apply andb_prop in H; destruct H as [H ?]).
  repeat split; try assumption;
    try (apply negb_true_iff; assumption);
    try (apply Z.eqb_eq; assumption).
Qed.

Lemma burst_inf_tick (bnm bln : Z) (s : state) (i : inputs) :
  burst_inf_cfg bnm bln i = true ->
  sts_run (step s i) =
    (if sts_trg s i
     then (if sts_run s then negb (cnt_bnm s =? 0) else true)
     else sts_run s) /\
  cnt_bnm (step s i) =
    (if sts_trg s i
     then (if sts_run s then cnt_bnm s mod 2 ^ 16 else bnm)
     else cnt_bnm s) /\
  cnt_bln (step s i) =
    (if sts_trg s i then bln else (cnt_bln s - b2z (sts_run s)) mod 2 ^ 32).
Proof.
  intros H. apply burst_inf_cfg_spec in H.
  destruct H as (Hr & Hc & Hben & Hinf & Hbnm & Hbln).
  cbn [step sts_run cnt_bnm cnt_bln]. unfold next_fsm.
  rewrite Hr, Hc, Hben, Hinf, Hbnm, Hbln. cbn [negb b2z].
  rewrite Z.sub_0_r.
  destruct (sts_trg s i); cbn [fsm_run fsm_bnm fsm_bln]; repeat split.
Qed.

(** X4.  With the infinite flag set the repetition counter is never
    decremented, and it is still the counter that decides at the end of a
    period: with [cfg_bnm] not zero the burst repeats for ever, in periods of
    [cfg_bln + 1] ticks, and with [cfg_bnm = 0] it stops after a single
    period, infinite flag or not. *)
Theorem burst_infinite (bnm bln : Z) (f : nat -> inputs) (s : state) :
  0 <= bnm < 2 ^ 16 -> 0 <= bln < 2 ^ 32 ->
  sts_run s = false -> trg (f O) = true ->
  (forall t, burst_inf_cfg bnm bln (f t) = true) ->
  (forall t, trg (f (S t)) = false) ->
  forall t : nat,
    sts_run (exec f (S t) s) =
      negb (bnm =? 0) || (Z.of_nat t <? bln + 1) /\
    (sts_run (exec f (S t) s) = true ->
     cnt_bnm (exec f (S t) s) = bnm /\
     cnt_bln (exec f (S t) s) = bln - Z.of_nat t mod (bln + 1)).
Proof.
  intros Hk HL Hidle Htrg Hcfg Hquiet.
  assert (Hinv : forall t : nat,
    (bnm <> 0 \/ Z.of_nat t < bln + 1 ->
     sts_run (exec f (S t) s) = true /\
     cnt_bnm (exec f (S t) s) = bnm /\
     cnt_bln (exec f (S t) s) = bln - Z.of_nat t mod (bln + 1)) /\
    (bnm = 0 /\ bln + 1 <= Z.of_nat t ->
     sts_run (exec f (S t) s) = false)).
  { induction t as [| t IH].
    - cbn [exec].
      destruct (burst_inf_tick bnm bln s (f O) (Hcfg O)) as (Hrun & Hb & Hl).
      assert (Hst : sts_trg s (f O) = true)
        by (unfold sts_trg; rewrite Hidle; exact Htrg).
      rewrite Hst, Hidle in *. rewrite Hrun, Hb, Hl.
      change (Z.of_nat 0) with 0. rewrite Z.mod_0_l by lia.
      split; [intros _; repeat split; lia | intros; lia].
    - remember (exec f (S t) s) as st eqn:Est.
      change (exec f (S (S t)) s) with (step (exec f (S t) s) (f (S t))).
      rewrite <- Est.
      destruct (burst_inf_tick bnm bln st (f (S t)) (Hcfg (S t)))
        as (Hrun & Hb & Hl).
      rewrite Hrun, Hb, Hl. clear Hrun Hb Hl.
      destruct IH as [IHrun IHidle].
      pose proof (divmod_succ (Z.of_nat t) (bln + 1) ltac:(lia) ltac:(lia))
        as Hds.
      pose proof (Z.mod_pos_bound (Z.of_nat t) (bln + 1) ltac:(lia)) as Hmb.
      replace (Z.of_nat (S t)) with (Z.of_nat t + 1) by lia.
      destruct (Z.eq_dec bnm 0) as [Hz | Hnz].
      + destruct (Z.lt_ge_cases (Z.of_nat t) (bln + 1)) as [Hin | Hout].
        * destruct (IHrun (or_intror Hin)) as (Hr & Hbn & Hln).
          rewrite Z.mod_small in Hln, Hds by lia.
          unfold sts_trg, sts_rpt. rewrite Hr, Hbn, Hln. cbn [andb b2z].
          destruct Hds as [(Hm & _ & Hm') | (Hm & _ & Hm')]; rewrite Hm'.
          -- replace (bln - Z.of_nat t) with 0 by lia. cbn [Z.eqb].
             subst bnm. cbn [Z.eqb negb].
             split; [intros [H | H]; [congruence | lia] | reflexivity].
          -- assert (Hne : bln - Z.of_nat t <> 0) by lia.
             apply Z.eqb_neq in Hne. rewrite Hne.
             split; [| intros; lia].
             intros _. repeat split. rewrite Z.mod_small; lia.
        * pose proof (IHidle (conj Hz Hout)) as Hr.
          unfold sts_trg. rewrite Hr, (Hquiet t).
          split; [intros [H | H]; [congruence | lia] | reflexivity].
      + destruct (IHrun (or_introl Hnz)) as (Hr & Hbn & Hln).
        unfold sts_trg, sts_rpt. rewrite Hr, Hbn, Hln. cbn [andb b2z].
        split; [| intros [H _]; congruence].
        intros _.
        destruct Hds as [(Hm & _ & Hm') | (Hm & _ & Hm')]; rewrite Hm'.
        * replace (bln - Z.of_nat t mod (bln + 1)) with 0 by lia.
          cbn [Z.eqb]. apply Z.eqb_neq in Hnz. rewrite Hnz. cbn [negb].
          repeat split; [| lia]. apply Z.mod_small. lia.
        * assert (Hne : bln - Z.of_nat t mod (bln + 1) <> 0) by lia.
          apply Z.eqb_neq in Hne. rewrite Hne.
          repeat split. rewrite Z.mod_small; lia. }
  intros t. destruct (Hinv t) as [Hrun Hidl].
  destruct (Z.eq_dec bnm 0) as [Hz | Hnz].
  - destruct (Z.ltb_spec (Z.of_nat t) (bln + 1)) as [Hlt | Hge].
    + destruct (Hrun (or_intror Hlt)) as (Hr & Hb & Hl).
      rewrite Hr, orb_true_r. split; [reflexivity | intros _; split; assumption].
    + rewrite (Hidl (conj Hz Hge)). subst bnm. cbn.
      split; [reflexivity | intros H; discriminate H].
  - destruct (Hrun (or_introl Hnz)) as (Hr & Hb & Hl).
    apply Z.eqb_neq in Hnz. rewrite Hr, Hnz. cbn [negb orb].
    split; [reflexivity | intros _; split; assumption].
Qed.

(** *** The trigger notification of a burst *)

(** X5.  In a finite burst of [bnm + 1] periods of [bln + 1] ticks, armed by
    one trigger on tick 0, [trg_o] is high for one tick at the start of each
    period and once more on the tick after the last period, on which the
    generator stops: [bnm + 2] pulses, [bln + 1] ticks apart.  On that last
    tick the pointer is back at [cfg_off], [cnt_bln] is reloaded and [cnt_bnm]
    has wrapped from 0 to [2^16 - 1]. *)
Theorem burst_trigger_output (bnm bln : Z) (f : nat -> inputs) (s : state) :
  0 <= bnm < 2 ^ 16 -> 0 <= bln < 2 ^ 32 ->
  sts_run s = false -> trg (f O) = true ->
  (forall t, burst_cfg bnm bln (f t) = true) ->
  (forall t, trg (f (S t)) = false) ->
  (forall t : nat,
     trg_o (exec f (S t) s) =
       (Z.of_nat t <=? (bnm + 1) * (bln + 1)) &&
       (Z.of_nat t mod (bln + 1) =? 0)) /\
  (forall t : nat,
     Z.of_nat t = (bnm + 1) * (bln + 1) ->
     sts_run (exec f (S t) s) = false /\
     ptr_cur (exec f (S t) s) = cfg_off (f t) /\
     cnt_bln (exec f (S t) s) = bln /\
     cnt_bnm (exec f (S t) s) = 2 ^ 16 - 1).
Proof.
  intros Hk HL Hidle Htrg Hcfg Hquiet.
  pose proof (burst_counters CWM CWF DW bnm bln f s Hk HL Hidle Htrg Hcfg
                Hquiet) as Hcnt.
  assert (Hev : forall t : nat,
            sts_trg (exec f (S t) s) (f (S t)) =
              (Z.of_nat t <? (bnm + 1) * (bln + 1)) &&
              (Z.of_nat t mod (bln + 1) =? bln)).
  { intros t. destruct (Hcnt t) as [Hin Hout].
    destruct (Z.ltb_spec (Z.of_nat t) ((bnm + 1) * (bln + 1))) as [Hlt | Hge].
    - destruct (Hin Hlt) as (Hr & _ & Hl).
      unfold sts_trg, sts_rpt. rewrite Hr, Hl. cbn [andb].
      destruct (Z.eqb_spec (bln - Z.of_nat t mod (bln + 1)) 0);
        destruct (Z.eqb_spec (Z.of_nat t mod (bln + 1)) bln); lia.
    - unfold sts_trg. rewrite (Hout Hge). cbn [andb]. apply Hquiet. }
  split.
  - intros [| t].
    + cbn [exec].
      destruct (burst_tick CWM CWF DW bnm bln s (f O) (Hcfg O))
        as (_ & _ & _ & _ & Ho).
      rewrite Ho. unfold sts_trg. rewrite Hidle, Htrg.
      change (Z.of_nat 0) with 0. rewrite Z.mod_0_l by lia.
      symmetry. apply andb_true_iff. split; [apply Z.leb_le; nia | reflexivity].
    + change (exec f (S (S t)) s) with (step (exec f (S t) s) (f (S t))).
      destruct (burst_tick CWM CWF DW bnm bln (exec f (S t) s) (f (S t))
                  (Hcfg (S t))) as (_ & _ & _ & _ & Ho).
      rewrite Ho, Hev.
      pose proof (divmod_succ (Z.of_nat t) (bln + 1) ltac:(lia) ltac:(lia))
        as Hds.
      replace (Z.of_nat (S t)) with (Z.of_nat t + 1) by lia.
      destruct (Z.ltb_spec (Z.of_nat t) ((bnm + 1) * (bln + 1)));
        destruct (Z.leb_spec (Z.of_nat t + 1) ((bnm + 1) * (bln + 1)));
        try lia; cbn [andb].
      destruct Hds as [(Hm & _ & Hm') | (Hm & _ & Hm')]; rewrite Hm'.
      * rewrite Hm. replace (bln + 1 - 1) with bln by lia.
        rewrite Z.eqb_refl. reflexivity.
      * pose proof (Z.mod_pos_bound (Z.of_nat t) (bln + 1) ltac:(lia)).
        destruct (Z.eqb_spec (Z.of_nat t mod (bln + 1)) bln);
          destruct (Z.eqb_spec (Z.of_nat t mod (bln + 1) + 1) 0); lia.
  - intros t Ht.
    destruct t as [| t]; [change (Z.of_nat 0) with 0 in Ht; nia |].
    destruct (Hcnt t) as [Hin _].
    assert (Hlt : Z.of_nat t < (bnm + 1) * (bln + 1)) by lia.
    destruct (Hin Hlt) as (Hr & Hb & Hl).
    pose proof (divmod_succ (Z.of_nat t) (bln + 1) ltac:(lia) ltac:(lia))
      as Hds.
    pose proof (lt_periods_iff (Z.of_nat t) bnm (bln + 1)
                  ltac:(lia) ltac:(lia) ltac:(lia)) as Hq.
    pose proof (lt_periods_iff (Z.of_nat t + 1) bnm (bln + 1)
                  ltac:(lia) ltac:(lia) ltac:(lia)) as Hq'.
    assert (Hlast : Z.of_nat t mod (bln + 1) = bln /\
                    Z.of_nat t / (bln + 1) = bnm).
    { destruct Hds as [(Hm & Hd & _) | (Hm & Hd & _)].
      - split; [lia |]. rewrite Hd in Hq'. lia.
      - exfalso. rewrite Hd in Hq'.
        assert (Z.of_nat t + 1 < (bnm + 1) * (bln + 1)) by (apply Hq'; lia).
        lia. }
    destruct Hlast as [Hm Hd].
    change (exec f (S (S t)) s) with (step (exec f (S t) s) (f (S t))).
    destruct (burst_tick CWM CWF DW bnm bln (exec f (S t) s) (f (S t))
                (Hcfg (S t))) as (T1 & T2 & T3 & T4 & _).
    assert (Hst : sts_trg (exec f (S t) s) (f (S t)) = true).
    { rewrite Hev. apply andb_true_iff.
      split; [apply Z.ltb_lt; lia | apply Z.eqb_eq; exact Hm]. }
    rewrite T1, T2, T3, (T4 Hst), Hst, Hr, Hb, Hd.
    replace (bnm - bnm) with 0 by lia.
    repeat split.
Qed.

(** *** The sample table and the bus *)

Lemma no_write_to_S (a : Z) (f : nat -> inputs) (m : nat) :
  no_write_to a f (S m) = true ->
  no_write_to a f m = true /\
  (bus_wen (f m) && (bus_addr (f m) =? a) = false).
Proof.
  cbn [no_write_to]. intros H. apply andb_prop in H. destruct H as [H1 H2].
  split; [exact H1 | apply negb_true_iff; exact H2].
Qed.

Lemma cell_kept (a : Z) (f : nat -> inputs) (n : nat) (s : state) :
  no_write_to a f n = true -> buf_mem (exec f n s) a = buf_mem s a.
Proof.
  induction n as [| m IH]; intros H; [reflexivity |].
  apply no_write_to_S in H. destruct H as [Hm Hw].
  cbn [exec step buf_mem]. unfold next_buf_mem.
  destruct (bus_wen (f m)); cbn [andb] in *; [| apply IH; exact Hm].
  destruct ((0 <=? bus_addr (f m)) && (bus_addr (f m) <? 2 ^ Z.of_N CWM));
    [| apply IH; exact Hm].
  unfold mem_write. rewrite Z.eqb_sym, Hw. apply IH. exact Hm.
Qed.

(** X6.  A bus write to a cell inside the table, any number of ticks without
    another write to that cell, then a bus read of the cell: [bus.rdata]
    returns the written value cut to the sample width, whatever the
    generator and the resets do meanwhile.  A read on the tick of the write
    itself still returns the old content of the cell. *)
Theorem bus_write_then_read (s : state) (w r : inputs) (g : nat -> inputs)
    (n : nat) :
  bus_wen w = true -> 0 <= bus_addr w < 2 ^ Z.of_N CWM ->
  no_write_to (bus_addr w) g n = true ->
  bus_ren r = true -> bus_addr r = bus_addr w ->
  bus_rdata (step (exec g n (step s w)) r) = bus_wdata w mod 2 ^ Z.of_N DW /\
  (bus_ren w = true -> bus_rdata (step s w) = buf_mem s (bus_addr w)).
Proof.
  intros Hw Ha Hn Hr Hra. split.
  - cbn [step bus_rdata]. unfold next_bus_rdata at 1. rewrite Hr, Hra.
    rewrite (cell_kept (bus_addr w) g n (step s w) Hn).
    cbn [step buf_mem]. unfold next_buf_mem. rewrite Hw.
    assert (H0 : (0 <=? bus_addr w) = true) by (apply Z.leb_le; lia).
    assert (H1 : (bus_addr w <? 2 ^ Z.of_N CWM) = true)
      by (apply Z.ltb_lt; lia).
    rewrite H0, H1. cbn [andb]. unfold mem_write.
    rewrite Z.eqb_refl. reflexivity.
  - intros Hrw. cbn [step bus_rdata]. unfold next_bus_rdata.
    rewrite Hrw. reflexivity.
Qed.

(** X7.  Only bus writes change the sample table: over any number of ticks
    without a write request the table is the same function of the address,
    through triggers, playback, the synchronous clear and hardware reset
    alike. *)
Theorem table_changed_by_writes_only (f : nat -> inputs) (n : nat)
    (s : state) :
  no_writes f n = true -> buf_mem (exec f n s) = buf_mem s.
Proof.
  induction n as [| m IH]; intros H; [reflexivity |].
  cbn [no_writes] in H. apply andb_prop in H. destruct H as [Hm Hw].
  apply negb_true_iff in Hw.
  cbn [exec step buf_mem]. unfold next_buf_mem. rewrite Hw. cbn [andb].
  apply IH. exact Hm.
Qed.

(** *** From the pointer to the output stream *)

(** X8.  The sample offered with [sto.vld] is the one the pointer addressed
    two ticks before: if the generator runs on tick [t] and both resets are
    released on ticks [t] and [t + 1], then on tick [t + 2] [sto.vld] is high
    and [sto.dat] is the table cell, as the table stands on tick [t + 1], at
    the magnitude bits of [ptr_cur] of tick [t]. *)
Theorem stream_data_path (f : nat -> inputs) (t : nat) (s : state) :
  sts_run (exec f t s) = true ->
  sto_rstn (f t) = true -> ctl_rst (f t) = false ->
  sto_rstn (f (S t)) = true -> ctl_rst (f (S t)) = false ->
  out_sto_vld (out KN (exec f (S (S t)) s)) = true /\
  out_sto_dat (out KN (exec f (S (S t)) s)) =
    buf_mem (exec f (S t) s) (ptr_addr (ptr_cur (exec f t s))).
Proof.
  intros Hrun Hr Hc Hr' Hc'.
  assert (Hv : sts_vld (exec f (S t) s) = true).
  { cbn [exec step sts_vld]. unfold next_sts_vld. rewrite Hr, Hc. exact Hrun. }
  assert (Ha : buf_raddr (exec f (S t) s) = ptr_addr (ptr_cur (exec f t s))).
  { cbn [exec step buf_raddr]. unfold next_buf_raddr. rewrite Hrun.
    reflexivity. }
  change (exec f (S (S t)) s) with (step (exec f (S t) s) (f (S t))).
  cbn [out out_sto_vld out_sto_dat step sto_vld buf_rdata].
  unfold next_sto_vld, next_buf_rdata. rewrite Hr', Hc', Hv, Ha.
  split; reflexivity.
Qed.

(** *** The control path and the bus *)

Lemma ctrl_step (s s' : state) (i : inputs) (rstn wen ren : bool)
    (addr wdata : Z) :
  ctrl s' = ctrl s ->
  ctrl (step s' (with_bus i rstn wen ren addr wdata)) = ctrl (step s i).
Proof.
  unfold ctrl. intros H. injection H as H1 H2 H3 H4 H5 H6 H7 H8 H9.
  cbn [step sts_run sts_rdt ptr_cur cnt_bln cnt_bnm sts_vld sto_vld trg_o
       buf_raddr].
  unfold next_fsm, next_ptr_cur, next_sts_vld, next_sto_vld, next_trg_o,
    next_buf_raddr, sts_trg, sts_rpt, ptr_nxt_sub_neg, ptr_nxt_sub, ptr_nxt,
    trg.
  cbn [with_bus sto_rstn ctl_rst trg_i cfg_trg cfg_siz cfg_stp cfg_off
       cfg_ben cfg_inf cfg_bln cfg_bnm].
  rewrite ?H1, ?H2, ?H3, ?H4, ?H5, ?H6, ?H9. reflexivity.
Qed.

(** X9.  Playback control never depends on the bus or on the data: two runs
    that start with equal control registers (running flag, pointer, burst
    counters, valid flags, trigger notification, read address) and see the
    same stream-side inputs hold equal control registers on every tick,
    whatever the sample tables contain and whatever bus requests either run
    receives. *)
Theorem control_ignores_bus_and_table
    (f : nat -> inputs) (rstn wen ren : nat -> bool) (addr wdata : nat -> Z)
    (n : nat) (s s' : state) :
  ctrl s' = ctrl s ->
  ctrl (exec (fun t => with_bus (f t) (rstn t) (wen t) (ren t) (addr t)
                         (wdata t)) n s')
  = ctrl (exec f n s).
Proof.
  intros H. induction n as [| m IH]; [exact H |].
  cbn [exec]. apply ctrl_step. exact IH.
Qed.

(** *** Periodic mode keeps running *)

(** X15.  Periodic mode never stops by itself and never touches the burst
    counters: once running, with both resets released, the generator runs on
    every later tick, and [cnt_bln] and [cnt_bnm] keep the values they had. *)
Theorem periodic_never_stops (f : nat -> inputs) (n : nat) (s : state) :
  sts_run s = true -> (forall t, periodic_cfg (f t) = true) ->
  sts_run (exec f n s) = true /\
  cnt_bln (exec f n s) = cnt_bln s /\ cnt_bnm (exec f n s) = cnt_bnm s.
Proof.
  intros Hrun Hcfg. induction n as [| m IH]; [repeat split; exact Hrun |].
  destruct IH as (Hr & Hl & Hb). cbn [exec].
  destruct (periodic_tick CWM CWF DW (exec f m s) (f m) (Hcfg m))
    as (T1 & T2 & T3 & _).
  rewrite T1, T2, T3, Hr, Hl, Hb.
  destruct (sts_trg (exec f m s) (f m)); repeat split.
Qed.

(** X16.  Periodic playback started while [cnt_bln] is zero, as hardware
    reset and the synchronous clear leave it, never advances: a start event
    fires on every running tick, so [trg_o] stays high, [cnt_bln] stays zero
    and the pointer is reloaded with [cfg_off] every tick; the read address
    registered for the table is that of [cfg_off]. *)
Theorem periodic_stuck_after_clear (f : nat -> inputs) (s : state) :
  sts_run s = false -> cnt_bln s = 0 -> trg (f O) = true ->
  (forall t, periodic_cfg (f t) = true) ->
  forall t : nat,
    sts_run (exec f (S t) s) = true /\
    ptr_cur (exec f (S t) s) = cfg_off (f t) /\
    trg_o (exec f (S t) s) = true /\
    buf_raddr (exec f (S (S t)) s) = ptr_addr (cfg_off (f t)).
Proof.
  intros Hidle Hbln Htrg Hcfg t.
  destruct (periodic_restarts_when_bln_zero CWM CWF DW f s Hidle Hbln Htrg
              Hcfg t) as (Hr & _ & Hp & Ho).
  repeat split; try assumption.
  change (exec f (S (S t)) s) with (step (exec f (S t) s) (f (S t))).
  cbn [step buf_raddr]. unfold next_buf_raddr. rewrite Hr, Hp. reflexivity.
Qed.

End MoreProperties.

(** ** Properties of the streaming settings *)

Section SettingsProperties.

Variables Z20 Z20_250_12 : bool.
Variable JV : Type.
Variable jv_string : string -> JV.
Variable jv_int : Z -> JV.
Variable jv_uint : Z -> JV.
Variable jv_bool : bool -> JV.
Variable asString : JV -> string.
Variable asInt : JV -> Z.
Variable asUInt : JV -> Z.
Variable asBool : JV -> bool.
Variable FileText : Type.
Variable writeString : list (string * JV) -> FileText.
Variable parseFromStream : FileText -> option (list (string * JV)).

Local Abbreviation reset := (reset Z20 Z20_250_12).
Local Abbreviation isSetted := (isSetted Z20 Z20_250_12).
Local Abbreviation required := (required Z20 Z20_250_12).
Local Abbreviation settings_root :=
  (settings_root Z20 Z20_250_12 JV jv_string jv_int jv_uint jv_bool).
Local Abbreviation writeToFile :=
  (writeToFile Z20 Z20_250_12 JV jv_string jv_int jv_uint jv_bool FileText
     writeString).
Local Abbreviation readFromFile :=
  (readFromFile Z20 Z20_250_12 JV asString asInt asUInt asBool FileText
     parseFromStream).
Local Abbreviation same_values := (same_values Z20 Z20_250_12).

(** *** Flags *)

Lemma forallb_ext_in {A : Type} (p q : A -> bool) (l : list A) :
  (forall x, In x l -> p x = q x) -> forallb p l = forallb q l.
Proof.
  induction l as [| a l IH]; intros H; [reflexivity |].
  cbn [forallb]. rewrite (H a (or_introl eq_refl)).
  rewrite IH; [reflexivity |]. intros x Hx. apply H. right. exact Hx.
Qed.

Lemma isSetted_flags (s : CStreamSettings) :
  isSetted s = forallb (fun k => flag k s) required.
Proof.
  unfold isSetted, required. destruct Z20, Z20_250_12; cbn [app forallb flag];
    rewrite ?andb_true_r, ?andb_assoc; reflexivity.
Qed.

Lemma flag_call (k : nat) (c : setter_call) (s : CStreamSettings) :
  flag k (call c s) = flag k s || (member_of c =? k)%nat.
Proof.
  destruct c; cbn [call member_of];
    do 12 (destruct k as [| k];
           [cbn; rewrite ?orb_true_r, ?orb_false_r; reflexivity |]);
    cbn; rewrite ?orb_false_r; reflexivity.
Qed.

Lemma flag_calls (k : nat) (cs : list setter_call) (s : CStreamSettings) :
  flag k (calls cs s) =
    flag k s || existsb (fun c => (member_of c =? k)%nat) cs.
Proof.
  unfold calls. revert s. induction cs as [| c cs IH]; intros s.
  - cbn. rewrite orb_false_r. reflexivity.
  - cbn [fold_left existsb]. rewrite IH, flag_call, orb_assoc. reflexivity.
Qed.

Lemma flag_reset (k : nat) (s : CStreamSettings) :
  In k required -> flag k (reset s) = false.
Proof.
  unfold required. intros H.
  destruct Z20, Z20_250_12; cbn [app In] in H;
    repeat (destruct H as [H | H]; [subst k; reflexivity |]);
    destruct H.
Qed.

(** X10.  After [reset] (and so after the constructor), whatever setters are
    called and in whatever order, [isSetted] holds exactly when every member
    the build asks for has been set at least once: the nine common members,
    [attenuator] and [calibration] unless [Z20] is defined, and [coupling]
    when [Z20_250_12] is defined. *)
Theorem isSetted_after_calls (cs : list setter_call) (s : CStreamSettings) :
  isSetted (calls cs (reset s)) =
    forallb (fun k => existsb (fun c => (member_of c =? k)%nat) cs) required.
Proof.
  rewrite isSetted_flags. apply forallb_ext_in. intros k Hk.
  rewrite flag_calls, (flag_reset k s Hk). reflexivity.
Qed.

(** *** The sample count *)

Lemma getSamples_setSamples (z : Z) (s : CStreamSettings) :
  - 2 ^ 31 <= z < 2 ^ 31 -> getSamples (setSamples z s) = z.
Proof.
  intros Hz. unfold getSamples, setSamples. cbn [m_samples].
  destruct (Z.ltb_spec (z mod 2 ^ 32) (2 ^ 31)) as [Hlt | Hge].
  - destruct (Z.lt_ge_cases z 0) as [Hneg | Hpos].
    + exfalso.
      assert (H : z mod 2 ^ 32 = z + 2 ^ 32)
        by (symmetry; apply (Z.mod_unique_pos _ _ (-1)); lia).
      lia.
    + apply Z.mod_small. lia.
  - destruct (Z.lt_ge_cases z 0) as [Hneg | Hpos].
    + assert (H : z mod 2 ^ 32 = z + 2 ^ 32)
        by (symmetry; apply (Z.mod_unique_pos _ _ (-1)); lia).
      lia.
    + rewrite Z.mod_small in Hge by lia. lia.
Qed.

(** X11.  The sample count goes through the [uint32_t] member unharmed:
    [getSamples] returns every [int32_t] value [setSamples] was given,
    negative ones included, and the constructor's default reads back as
    [-1].  [setSamples] raises the flag of the sample count and changes
    nothing else: every other value and every other flag is as before. *)
Theorem samples_round_trip (z : Z) (s : CStreamSettings) :
  - 2 ^ 31 <= z < 2 ^ 31 ->
  getSamples (setSamples z s) = z /\
  getSamples (CStreamSettings_new Z20 Z20_250_12) = -1 /\
  m_Bsamples (setSamples z s) = true /\
  (forall k, k <> 3%nat -> flag k (setSamples z s) = flag k s) /\
  getHost (setSamples z s) = getHost s /\
  getPort (setSamples z s) = getPort s /\
  getProtocol (setSamples z s) = getProtocol s /\
  getFormat (setSamples z s) = getFormat s /\
  getType (setSamples z s) = getType s /\
  getChannels (setSamples z s) = getChannels s /\
  getResolution (setSamples z s) = getResolution s /\
  getDecimation (setSamples z s) = getDecimation s /\
  getAttenuator (setSamples z s) = getAttenuator s /\
  getCalibration (setSamples z s) = getCalibration s /\
  getAC_DC (setSamples z s) = getAC_DC s.
Proof.
  intros Hz. split; [apply getSamples_setSamples; exact Hz |].
  split; [reflexivity |]. split; [reflexivity |].
  split; [| repeat split].
  intros k Hk.
  do 12 (destruct k as [| k]; [try reflexivity; congruence |]).
  reflexivity.
Qed.

(** *** Reading the settings file *)

Lemma flag_read_miss (k : nat) (root : list (string * JV)) (key : string)
    (set : JV -> CStreamSettings -> CStreamSettings) (s : CStreamSettings) :
  (forall v s', flag k (set v s') = flag k s') ->
  flag k (read_member JV root key set s) = flag k s.
Proof.
  intros H. unfold read_member. destruct (json_get root key); [apply H |].
  reflexivity.
Qed.

Lemma flag_read_hit (k : nat) (root : list (string * JV)) (key : string)
    (set : JV -> CStreamSettings -> CStreamSettings) (s : CStreamSettings) :
  (forall v s', flag k (set v s') = true) ->
  flag k (read_member JV root key set s) = flag k s || isMember root key.
Proof.
  intros H. unfold read_member, isMember.
  destruct (json_get root key); [rewrite H, orb_true_r | rewrite orb_false_r];
    reflexivity.
Qed.

Lemma read_flags (s : CStreamSettings) (text : FileText)
    (root : list (string * JV)) :
  parseFromStream text = Some root ->
  snd (readFromFile s (Some text)) =
    forallb (fun k => isMember root (key_of k)) required.
Proof.
  intros Hp. unfold readFromFile. rewrite Hp. cbv zeta. cbn [fst snd].
  rewrite isSetted_flags. apply forallb_ext_in. intros k Hk.
  pose proof (flag_reset k s Hk) as Hr.
  unfold required in Hk.
  destruct Z20, Z20_250_12; cbn [app In] in Hk;
    repeat (destruct Hk as [Hk | Hk];
            [subst k;
             repeat first
               [ rewrite flag_read_miss by (intros; reflexivity)
               | rewrite flag_read_hit by (intros; reflexivity) ];
             rewrite Hr; reflexivity |]);
    destruct Hk.
Qed.


(** X13.  The ways the settings file fails.  [writeToFile] writes nothing and
    returns false unless every required member is set, and when the file
    cannot be opened.  [readFromFile] leaves the object untouched when the
    file cannot be opened; when the file opens and does not parse, the
    flags are already cleared: the object keeps its values and [isSetted] no
    longer holds, even if it did before. *)
Theorem settings_file_failures (s : CStreamSettings) (text : FileText)
    (can_open : bool) :
  (isSetted s = false -> writeToFile s can_open = (false, None)) /\
  writeToFile s false = (false, None) /\
  readFromFile s None = (s, false) /\
  (parseFromStream text = None ->
   snd (readFromFile s (Some text)) = false /\
   isSetted (fst (readFromFile s (Some text))) = false /\
   same_values (fst (readFromFile s (Some text))) s).
Proof.
  split; [| split; [| split]].
  - intros H. unfold writeToFile. rewrite H. reflexivity.
  - unfold writeToFile. destruct (isSetted s); reflexivity.
  - reflexivity.
  - intros H. unfold readFromFile. rewrite H. cbn [fst snd].
    split; [reflexivity | split].
    + rewrite isSetted_flags.
      unfold required. destruct Z20, Z20_250_12; reflexivity.
    + unfold same_values. repeat split.
Qed.

(** *** Writing and reading back *)

Lemma getSamples_int (s : CStreamSettings) :
  0 <= m_samples s < 2 ^ 32 -> - 2 ^ 31 <= getSamples s < 2 ^ 31.
Proof.
  intros H. unfold getSamples.
  destruct (Z.ltb_spec (m_samples s) (2 ^ 31)); lia.
Qed.

Lemma int_range_spec (z : Z) :
  int_range z = true <-> - 2 ^ 31 <= z < 2 ^ 31.
Proof. unfold int_range. lia. Qed.

(** A getter is not concerned by the reading of another member. *)
Lemma get_read_miss {A : Type} (g : CStreamSettings -> A)
    (root : list (string * JV)) (key : string)
    (set : JV -> CStreamSettings -> CStreamSettings) (s : CStreamSettings) :
  (forall v s', g (set v s') = g s') ->
  g (read_member JV root key set s) = g s.
Proof.
  intros H. unfold read_member. destruct (json_get root key); [apply H |].
  reflexivity.
Qed.

Lemma read_member_hit (root : list (string * JV)) (key : string)
    (set : JV -> CStreamSettings -> CStreamSettings) (s : CStreamSettings)
    (v : JV) :
  json_get root key = Some v -> read_member JV root key set s = set v s.
Proof. intros H. unfold read_member. rewrite H. reflexivity. Qed.

(** The members of the document [writeToFile] builds. *)
Lemma root_members (s : CStreamSettings) :
  json_get (settings_root s) "host" = Some (jv_string (getHost s)) /\
  json_get (settings_root s) "port" = Some (jv_string (getPort s)) /\
  json_get (settings_root s) "protocol" = Some (jv_int (getProtocol s)) /\
  json_get (settings_root s) "samples" = Some (jv_int (getSamples s)) /\
  json_get (settings_root s) "format" = Some (jv_int (getFormat s)) /\
  json_get (settings_root s) "type" = Some (jv_int (getType s)) /\
  json_get (settings_root s) "channels" = Some (jv_int (getChannels s)) /\
  json_get (settings_root s) "resolution"
    = Some (jv_int (getResolution s)) /\
  json_get (settings_root s) "decimation"
    = Some (jv_uint (getDecimation s)) /\
  (Z20 = false ->
   json_get (settings_root s) "attenuator"
     = Some (jv_int (getAttenuator s)) /\
   json_get (settings_root s) "calibration"
     = Some (jv_bool (getCalibration s))) /\
  (Z20_250_12 = true ->
   json_get (settings_root s) "coupling" = Some (jv_int (getAC_DC s))).
Proof.
  unfold settings_root.
  destruct Z20, Z20_250_12; repeat split; try reflexivity; congruence.
Qed.

Lemma root_complete (s : CStreamSettings) :
  forallb (fun k => isMember (settings_root s) (key_of k)) required = true.
Proof.
  unfold settings_root, required.
  destruct Z20, Z20_250_12; reflexivity.
Qed.

(** X14.  A fully set object written with [writeToFile] and read back with
    [readFromFile], into any object, gives true and the same values for
    every member of the build, provided the JSON library returns what it was
    given ([asString], [asInt], [asUInt], [asBool] undo the constructors on
    values of their types, and parsing undoes writing). *)
Theorem write_read_round_trip (s : CStreamSettings) :
  (forall v, asString (jv_string v) = v) ->
  (forall z, int_range z = true -> asInt (jv_int z) = z) ->
  (forall z, 0 <= z < 2 ^ 32 -> asUInt (jv_uint z) = z) ->
  (forall b, asBool (jv_bool b) = b) ->
  (forall root, parseFromStream (writeString root) = Some root) ->
  isSetted s = true -> values_in_range s = true ->
  exists text,
    writeToFile s true = (true, Some text) /\
    forall s0,
      snd (readFromFile s0 (Some text)) = true /\
      same_values (fst (readFromFile s0 (Some text))) s.
Proof.
  intros Hstr Hint Huint Hbool Hparse Hset Hrange.
  exists (writeString (settings_root s)).
  split; [unfold writeToFile; rewrite Hset; reflexivity |].
  intros s0.
  split; [rewrite (read_flags s0 _ _ (Hparse _)); apply root_complete |].
  assert (Hr : int_range (getProtocol s) = true /\
               int_range (getFormat s) = true /\
               int_range (getType s) = true /\
               int_range (getChannels s) = true /\
               int_range (getResolution s) = true /\
               int_range (getAttenuator s) = true /\
               int_range (getAC_DC s) = true /\
               0 <= m_samples s < 2 ^ 32 /\
               0 <= getDecimation s < 2 ^ 32).
  { unfold values_in_range in Hrange.
    unfold getProtocol, getFormat, getType, getChannels, getResolution,
      getAttenuator, getAC_DC, getDecimation.
    unfold int_range in *. lia. }
  destruct Hr as (R1 & R2 & R3 & R4 & R5 & R6 & R7 & R8 & R9).
  pose proof (getSamples_int s R8) as Hsi.
  assert (Hsr : int_range (getSamples s) = true)
    by (apply int_range_spec; exact Hsi).
  destruct (root_members s)
    as (M1 & M2 & M3 & M4 & M5 & M6 & M7 & M8 & M9 & M10 & M12).
  unfold readFromFile. rewrite Hparse. cbv zeta. cbn [fst].
  unfold same_values.
  repeat match goal with
         | |- _ /\ _ => split
         end.
  - destruct Z20, Z20_250_12;
      repeat (rewrite get_read_miss by (intros; reflexivity));
      rewrite (read_member_hit _ _ _ _ _ M1); apply Hstr.
  - destruct Z20, Z20_250_12;
      repeat (rewrite get_read_miss by (intros; reflexivity));
      rewrite (read_member_hit _ _ _ _ _ M2); apply Hstr.
  - destruct Z20, Z20_250_12;
      repeat (rewrite get_read_miss by (intros; reflexivity));
      rewrite (read_member_hit _ _ _ _ _ M3); apply (Hint _ R1).
  - destruct Z20, Z20_250_12;
      repeat (rewrite get_read_miss by (intros; reflexivity));
      rewrite (read_member_hit _ _ _ _ _ M4); cbv beta;
      rewrite (Hint _ Hsr); apply getSamples_setSamples; exact Hsi.
  - destruct Z20, Z20_250_12;
      repeat (rewrite get_read_miss by (intros; reflexivity));
      rewrite (read_member_hit _ _ _ _ _ M5); apply (Hint _ R2).
  - destruct Z20, Z20_250_12;
      repeat (rewrite get_read_miss by (intros; reflexivity));
      rewrite (read_member_hit _ _ _ _ _ M6); apply (Hint _ R3).
  - destruct Z20, Z20_250_12;
      repeat (rewrite get_read_miss by (intros; reflexivity));
      rewrite (read_member_hit _ _ _ _ _ M7); apply (Hint _ R4).
  - destruct Z20, Z20_250_12;
      repeat (rewrite get_read_miss by (intros; reflexivity));
      rewrite (read_member_hit _ _ _ _ _ M8); apply (Hint _ R5).
  - destruct Z20, Z20_250_12;
      repeat (rewrite get_read_miss by (intros; reflexivity));
      rewrite (read_member_hit _ _ _ _ _ M9); apply (Huint _ R9).
  - intros HZ. destruct Z20; [discriminate HZ |].
    destruct (M10 eq_refl) as (Ma & Mc). split.
    + destruct Z20_250_12;
        repeat (rewrite get_read_miss by (intros; reflexivity));
        rewrite (read_member_hit _ _ _ _ _ Ma); apply (Hint _ R6).
    + destruct Z20_250_12;
        repeat (rewrite get_read_miss by (intros; reflexivity));
        rewrite (read_member_hit _ _ _ _ _ Mc); apply Hbool.
  - intros HZ. destruct Z20_250_12; [| discriminate HZ].
    pose proof (M12 eq_refl) as Md.
    rewrite (read_member_hit _ _ _ _ _ Md). apply (Hint _ R7).
Qed.

End SettingsProperties.

(** ** The further properties at work *)


Lemma idle_holds_witness :
  sts_run (exec 14 16 8 (fun _ => burst_hold) 5 idle_after_burst) = false /\
  cnt_bln (exec 14 16 8 (fun _ => burst_hold) 5 idle_after_burst) = 7 /\
  cnt_bnm (exec 14 16 8 (fun _ => burst_hold) 5 idle_after_burst) = 65535 /\
  sto_vld (exec 14 16 8 (fun _ => burst_hold) 5 idle_after_burst) = false.
Proof.
  pose proof (idle_holds 14 16 8 (fun _ => burst_hold) 5 idle_after_burst)
    as H.
  specialize (H ltac:(by_eval) ltac:(by_eval) ltac:(by_eval)).
  destruct H as (Hr & _ & Hl & Hb & _ & _ & Hv).
  rewrite Hr, Hl, Hb, (Hv ltac:(lia)). repeat split.
Defined.

Lemma start_cfg_latched_witness :
  exec 14 16 8 (fun _ => with_start_cfg burst_hold 5 9 0 true) 7
    burst_started
  = exec 14 16 8 (fun _ => burst_hold) 7 burst_started.
Proof.
  apply (start_cfg_latched 14 16 8 (fun _ => burst_hold) (fun _ => 5)
           (fun _ => 9) (fun _ => 0) (fun _ => true) 7 burst_started).
  by_eval.
Defined.

Lemma burst_infinite_witness :
  sts_run (exec 14 16 8 (inf_wave 2) 1001 reset_state) = true /\
  sts_run (exec 14 16 8 (inf_wave 0) 8 reset_state) = true /\
  sts_run (exec 14 16 8 (inf_wave 0) 9 reset_state) = false.
Proof.
  pose proof (burst_infinite 14 16 8 2 7 (inf_wave 2) reset_state) as H2.
  specialize (H2 ltac:(by_eval) ltac:(by_eval) ltac:(by_eval) ltac:(by_eval)
                 ltac:(by_eval) ltac:(by_eval)).
  pose proof (burst_infinite 14 16 8 0 7 (inf_wave 0) reset_state) as H0.
  specialize (H0 ltac:(by_eval) ltac:(by_eval) ltac:(by_eval) ltac:(by_eval)
                 ltac:(by_eval) ltac:(by_eval)).
  rewrite (proj1 (H2 1000%nat)), (proj1 (H0 7%nat)), (proj1 (H0 8%nat)).
  repeat split.
Defined.

Lemma burst_trigger_output_witness :
  trg_o (exec 14 16 8 burst_wave 9 reset_state) = true /\
  trg_o (exec 14 16 8 burst_wave 10 reset_state) = false /\
  trg_o (exec 14 16 8 burst_wave 25 reset_state) = true /\
  cnt_bnm (exec 14 16 8 burst_wave 25 reset_state) = 65535.
Proof.
  pose proof (burst_trigger_output 14 16 8 2 7 burst_wave reset_state) as H.
  specialize (H ltac:(by_eval) ltac:(by_eval) ltac:(by_eval) ltac:(by_eval)
                ltac:(by_eval) ltac:(by_eval)).
  destruct H as (Ho & Hend).
  destruct (Hend 24%nat ltac:(by_eval)) as (_ & _ & _ & Hb).
  rewrite (Ho 8%nat), (Ho 9%nat), (Ho 24%nat), Hb. repeat split.
Defined.

Lemma bus_write_then_read_witness :
  bus_rdata
    (step 14 16 8
       (exec 14 16 8 burst_wave 3 (step 14 16 8 reset_state (bus_write 5 300)))
       (bus_read 5)) = 44.
Proof.
  pose proof (bus_write_then_read 14 16 8 reset_state (bus_write 5 300)
                (bus_read 5) burst_wave 3) as H.
  specialize (H ltac:(by_eval) ltac:(by_eval) ltac:(by_eval) ltac:(by_eval)
                ltac:(by_eval)).
  rewrite (proj1 H). reflexivity.
Defined.

Lemma table_changed_by_writes_only_witness :
  buf_mem (exec 14 16 8 burst_wave 10 loaded_state) = buf_mem loaded_state.
Proof.
  apply (table_changed_by_writes_only 14 16 8 burst_wave 10 loaded_state).
  by_eval.
Defined.

Lemma stream_data_path_witness :
  out_sto_vld (out 1 (exec 14 16 8 burst_wave 5 loaded_state)) = true /\
  out_sto_dat (out 1 (exec 14 16 8 burst_wave 5 loaded_state)) = 77.
Proof.
  pose proof (stream_data_path 14 16 8 1 burst_wave 3 loaded_state) as H.
  specialize (H ltac:(by_eval) ltac:(by_eval) ltac:(by_eval) ltac:(by_eval)
                ltac:(by_eval)).
  destruct H as (Hv & Hd). rewrite Hv, Hd. split; reflexivity.
Defined.

Lemma control_ignores_bus_and_table_witness :
  ctrl (exec 14 16 8 (fun t => with_bus (burst_wave t) true true false 2 99)
          12 loaded_state)
  = ctrl (exec 14 16 8 burst_wave 12 reset_state).
Proof.
  apply (control_ignores_bus_and_table 14 16 8 burst_wave (fun _ => true)
           (fun _ => true) (fun _ => false) (fun _ => 2) (fun _ => 99)
           12 reset_state loaded_state).
  by_eval.
Defined.

Lemma periodic_never_stops_witness :
  sts_run (exec 14 16 8 (fun _ => periodic10_hold) 500 periodic10_started)
    = true /\
  cnt_bln (exec 14 16 8 (fun _ => periodic10_hold) 500 periodic10_started)
    = 7.
Proof.
  pose proof (periodic_never_stops 14 16 8 (fun _ => periodic10_hold) 500
                periodic10_started) as H.
  specialize (H ltac:(by_eval) ltac:(by_eval)).
  destruct H as (Hr & Hl & _). rewrite Hr, Hl. split; reflexivity.
Defined.

Lemma periodic_stuck_after_clear_witness :
  ptr_cur (exec 14 16 8 periodic10_wave 6 reset_state) = 0 /\
  trg_o (exec 14 16 8 periodic10_wave 6 reset_state) = true /\
  buf_raddr (exec 14 16 8 periodic10_wave 7 reset_state) = 0.
Proof.
  pose proof (periodic_stuck_after_clear 14 16 8 periodic10_wave
                reset_state) as H.
  specialize (H ltac:(by_eval) ltac:(by_eval) ltac:(by_eval) ltac:(by_eval)).
  destruct (H 5%nat) as (_ & Hp & Ho & Ha). rewrite Hp, Ho, Ha.
  repeat split.
Defined.

Lemma samples_round_trip_witness :
  getSamples (setSamples (-5) sample_settings) = -5 /\
  getDecimation (setSamples (-5) sample_settings) = 16.
Proof.
  pose proof (samples_round_trip false false (-5) sample_settings) as H.
  specialize (H ltac:(lia)).
  destruct H as (H1 & _ & _ & _ & _ & _ & _ & _ & _ & _ & _ & H12 & _).
  rewrite H1, H12. split; reflexivity.
Defined.


Lemma write_read_round_trip_witness :
  exists text,
    write_json sample_settings true = (true, Some text) /\
    snd (read_json (CStreamSettings_new false false) (Some text)) = true /\
    getSamples (fst (read_json (CStreamSettings_new false false) (Some text)))
      = -1.
Proof.
  destruct (write_read_round_trip false false json_value JString JInt JUInt
              JBool json_asString json_asInt json_asInt json_asBool
              text_file write_text parse_text sample_settings)
    as (text & Hw & Hr).
  - intros v. reflexivity.
  - intros z _. reflexivity.
  - intros z _. reflexivity.
  - intros b. reflexivity.
  - intros root. reflexivity.
  - reflexivity.
  - reflexivity.
  - exists text. split; [exact Hw |]. unfold read_json.
    destruct (Hr (CStreamSettings_new false false)) as (Hs & Hv).
    split; [exact Hs |].
    destruct Hv as (_ & _ & _ & Hsam & _). rewrite Hsam. reflexivity.
Defined.
